(** * A shallow embedding of the RAG application (package [app])

    The development follows the Python package file by file:
    [config] (settings), [ingestion] (loaders, chunk enrichment, index
    preparation), [retriever] (the hybrid retriever) and [ui] (the mode
    table of the console).  Python dictionaries with string keys are
    finite maps, dictionaries written as literals are records or
    association lists, exceptions are values of type [Exception] carried
    by the [result] type, and calls to [logging] are collected in order. *)

From Stdlib Require Import Ascii String.
From stdpp Require Import gmap strings list fin_maps pretty.

Set Warnings "-register-all".

Open Scope string_scope.
Open Scope list_scope.

(** ** Python-level prelude *)

Module py.

(** Scalars that occur as metadata values: [str] and [int]. *)
Inductive value :=
| VStr (s : string)
| VInt (n : Z).

#[global] Instance value_eq_dec : EqDecision value.
Proof. solve_decision. Defined.

(** Instances of Python's [Exception] class, the ones an
    [except Exception] clause catches.  Each carries the text that
    [str(e)] renders. *)
Inductive Exception :=
| ConnectionError (msg : string)
| BadRequestError (msg : string)
| NotFoundError (msg : string)
| KeyError (key : string)
| TypeError (msg : string)
| ValueError (msg : string)
| OSError (msg : string)
| RuntimeError (msg : string).

Definition str_exc (e : Exception) : string :=
  match e with
  | ConnectionError m | BadRequestError m | NotFoundError m
  | TypeError m | ValueError m | OSError m | RuntimeError m => m
  | KeyError k => "'" +:+ k +:+ "'"
  end.

(** A call either returns a value or raises. *)
Inductive result (A : Type) :=
| Ok (a : A)
| Raise (e : Exception).
Arguments Ok {A} a.
Arguments Raise {A} e.

Definition bind {A B} (m : result A) (k : A -> result B) : result B :=
  match m with
  | Ok a => k a
  | Raise e => Raise e
  end.

(** [str(v)] as an f-string placeholder renders it. *)
Definition format_value (v : value) : string :=
  match v with
  | VStr s => s
  | VInt n => pretty n
  end.

(** [s.endswith(suffix)] *)
Definition endswith (s suffix : string) : bool :=
  let n := String.length s in
  let m := String.length suffix in
  if (m <=? n)%nat
  then bool_decide (String.substring (n - m) m s = suffix)
  else false.

(** [p.rfind('/') + 1]: one past the position of the last separator,
    [0] when there is none. *)
Fixpoint rfind_sep_succ (p : string) : nat :=
  match p with
  | EmptyString => 0
  | String c rest =>
      match rfind_sep_succ rest with
      | 0 => if bool_decide (c = "/"%char) then 1 else 0
      | S j => S (S j)
      end
  end.

(** [os.path.basename] of [posixpath]: [i = p.rfind(sep) + 1; p[i:]]. *)
Definition basename (p : string) : string :=
  let i := rfind_sep_succ p in
  String.substring i (String.length p - i) p.

(** [os.path.basename(v)] on a metadata value: [os.fspath] rejects
    anything that is not path-like. *)
Definition os_path_basename (v : value) : result string :=
  match v with
  | VStr p => Ok (basename p)
  | VInt _ =>
      Raise (TypeError "expected str, bytes or os.PathLike object, not int")
  end.

(** [d[k]] on a dictionary written as a literal, [None] for a missing
    key. *)
Fixpoint assoc {A} (k : string) (l : list (string * A)) : option A :=
  match l with
  | [] => None
  | (k', v) :: rest => if bool_decide (k = k') then Some v else assoc k rest
  end.

(** Records written by the [logging] module. *)
Inductive level := INFO | WARNING | ERROR.

#[global] Instance level_eq_dec : EqDecision level.
Proof. solve_decision. Defined.

Definition log_record : Type := level * string.

End py.

Import py.

(** [result] is an error monad; [x ← m; k] runs [m] and stops at the first
    exception raised. *)
#[global] Instance result_ret : MRet result := @Ok.
#[global] Instance result_bind : MBind result := fun A B k m => bind m k.

(** ** [langchain_core.documents.Document] *)

Record Document := {
  page_content : string;
  metadata : gmap string value
}.

(** ** Objects

    [chunk_documents] assigns into [chunk.metadata], a dictionary object
    the chunk refers to.  Where that matters a chunk holds the address
    of its dictionary, the dictionaries live in a store, and the code
    that mutates them is a state-and-exception computation over the
    store. *)

Record Chunk := {
  chunk_content : string;
  metadata_ref : positive
}.

Definition dict_at (h : gmap positive (gmap string value)) (l : positive)
  : gmap string value :=
  default ∅ (h !! l).

(** The document a chunk denotes in a store. *)
Definition snapshot (h : gmap positive (gmap string value)) (c : Chunk)
  : Document :=
  {| page_content := chunk_content c; metadata := dict_at h (metadata_ref c) |}.

Definition run (A : Type) : Type :=
  gmap positive (gmap string value) ->
  result A * gmap positive (gmap string value).

#[global] Instance run_ret : MRet run := fun A a h => (Ok a, h).
#[global] Instance run_bind : MBind run := fun A B k m h =>
  match m h with
  | (Ok a, h') => k a h'
  | (Raise e, h') => (Raise e, h')
  end.

(** [d.get(key)], which also answers [key in d]. *)
Definition getitem_opt (l : positive) (key : string) : run (option value) :=
  fun h => (Ok (dict_at h l !! key), h).

(** [d[key] = v] *)
Definition setitem (l : positive) (key : string) (v : value) : run unit :=
  fun h => (Ok (), <[l := <[key := v]> (dict_at h l)]> h).

Definition lift {A} (r : result A) : run A := fun h => (r, h).

(** ** app/config.py *)

Module config.

Record Settings := {
  index_name : string;
  google_drive_folder_id : string;
  chunk_size : Z;
  chunk_overlap : Z;
  embedding_model_name : string
}.

(** The defaults of the class; [settings = Settings()] may override
    any of them from the environment, so the functions below take the
    settings in force as an argument. *)
Definition defaults : Settings := {|
  index_name := "rag-internship-demo";
  google_drive_folder_id := "YOUR_GOOGLE_DRIVE_FOLDER_ID";
  chunk_size := 300;
  chunk_overlap := 50;
  embedding_model_name := "sentence-transformers/all-MiniLM-L6-v2"
|}.

(** The Elasticsearch fields of the same class ([None] is Python's
    [None]) with their defaults. *)
Record Elastic := {
  elastic_url : string;
  elastic_cloud_id : option string;
  elastic_api_key : option string
}.

Definition elastic_defaults : Elastic := {|
  elastic_url := "http://localhost:9200";
  elastic_cloud_id := None;
  elastic_api_key := None
|}.

End config.

(** ** Truthiness, and the construction of an Elasticsearch client *)

(** [bool(s)] for a [str], and for a [str | None]. *)
Definition truthy_str (s : string) : bool := negb (bool_decide (s = "")).

Definition truthy_opt (o : option string) : bool :=
  match o with
  | Some s => truthy_str s
  | None => false
  end.

(** The constructor call [Elasticsearch(...)] that a [get_es_client]
    makes: with [cloud_id=] and [api_key=], or with one host URL and an
    [api_key=] when one is passed. *)
Inductive es_client_args :=
| CloudClient (cloud_id : option string) (api_key : option string)
| HostsClient (url : string) (api_key : option string).

(** ** app/ingestion.py *)

Module ingestion.
Import config.

(** [posixpath.join(a, b)] *)
Definition os_path_join (a b : string) : string :=
  if String.prefix "/" b then b
  else if bool_decide (a = "") || endswith a "/" then a +:+ b
  else a +:+ "/" +:+ b.

(** *** Connection *)

Definition get_es_client (settings : Elastic)
  : list log_record * result es_client_args :=
  if truthy_opt (elastic_cloud_id settings)
     && truthy_opt (elastic_api_key settings) then
    ([(INFO, "Connecting to Elastic Cloud with Cloud ID.")],
     Ok (CloudClient (elastic_cloud_id settings) (elastic_api_key settings)))
  else if truthy_str (elastic_url settings)
          && truthy_opt (elastic_api_key settings) then
    ([(INFO, "Connecting to Elastic URL with API Key: "
               +:+ elastic_url settings)],
     Ok (HostsClient (elastic_url settings) (elastic_api_key settings)))
  else if truthy_str (elastic_url settings) then
    ([(INFO, "Connecting to Elastic URL (no auth): "
               +:+ elastic_url settings)],
     Ok (HostsClient (elastic_url settings) None))
  else
    ([],
     Raise (ValueError "No Elasticsearch connection settings found. Please configure ELASTIC_URL or ELASTIC_CLOUD_ID.")).

(** *** Chunk enrichment: the loop of [chunk_documents] *)

Definition drive_url_of (file_id : value) : string :=
  "https://docs.google.com/document/d/" +:+ format_value file_id +:+ "/".

(** The body of [for i, chunk in enumerate(chunks)]. *)
Definition enrich_chunk (i : nat) (chunk : Chunk) : run unit :=
  let md := metadata_ref chunk in
  setitem md "chunk_id" (VInt (Z.of_nat i));;
  source ← getitem_opt md "source";
  match source with
  | Some source =>
      name ← lift (os_path_basename source);
      setitem md "filename" (VStr name)
  | None => mret ()
  end;;
  file_id ← getitem_opt md "file_id";
  match file_id with
  | Some file_id => setitem md "drive_url" (VStr (drive_url_of file_id))
  | None => mret ()
  end.

(** [enumerate(chunks)] walked from index [i]. *)
Fixpoint enrich_from (i : nat) (chunks : list Chunk) : run unit :=
  match chunks with
  | [] => mret ()
  | chunk :: rest => enrich_chunk i chunk;; enrich_from (S i) rest
  end.

Record chunking := {
  chunking_log : list log_record;
  chunks_returned : result (list Chunk);
  dicts_after : gmap positive (gmap string value)
}.

Section chunking.
(** [RecursiveCharacterTextSplitter(chunk_size, chunk_overlap,
    length_function=len).split_documents] belongs to the
    langchain_text_splitters library; it is taken as given: from the
    documents it makes the chunks and the store holding their metadata
    dictionaries. *)
Variable RecursiveCharacterTextSplitter :
  Z -> Z -> list Document -> list Chunk * gmap positive (gmap string value).
Variable settings : Settings.

(** The splitter configured from the settings. *)
Definition text_splitter
  : list Document -> list Chunk * gmap positive (gmap string value) :=
  RecursiveCharacterTextSplitter (chunk_size settings) (chunk_overlap settings).

Definition chunk_documents (docs : list Document) : chunking :=
  let '(chunks, h) := text_splitter docs in
  let log :=
    [(INFO, "Split " +:+ pretty (length docs) +:+ " documents into "
              +:+ pretty (length chunks) +:+ " chunks.")] in
  match enrich_from 0 chunks h with
  | (Ok _, h') =>
      {| chunking_log := log; chunks_returned := Ok chunks; dicts_after := h' |}
  | (Raise e, h') =>
      {| chunking_log := log; chunks_returned := Raise e; dicts_after := h' |}
  end.
End chunking.

(** What the loop body does to the one dictionary it touches. *)
Definition enrich_dict (i : nat) (d : gmap string value)
  : result unit * gmap string value :=
  let d := <["chunk_id" := VInt (Z.of_nat i)]> d in
  match d !! "source" with
  | Some (VInt _) =>
      (Raise (TypeError "expected str, bytes or os.PathLike object, not int"),
       d)
  | Some (VStr p) =>
      let d := <["filename" := VStr (basename p)]> d in
      (Ok (),
       match d !! "file_id" with
       | Some file_id => <["drive_url" := VStr (drive_url_of file_id)]> d
       | None => d
       end)
  | None =>
      (Ok (),
       match d !! "file_id" with
       | Some file_id => <["drive_url" := VStr (drive_url_of file_id)]> d
       | None => d
       end)
  end.

(** *** Loaders *)

(** What the loaders meet outside the process: the data directory
    ([None] when [os.path.exists] is false, otherwise what
    [os.listdir] does), what [PyPDFLoader(file_path).load()] does for
    each path, whether the credentials file exists, and what
    [GoogleDriveLoader(folder_id=...).load()] does. *)
Record sources := {
  data_dir : option (result (list string));
  pdf_load : string -> result (list Document);
  credentials_exist : bool;
  gdrive_load : string -> result (list Document)
}.

Section loaders.
Variable PROJECT_ROOT : string.
Variable settings : Settings.
Variable env : sources.

Definition LOCAL_DATA_PATH : string := os_path_join PROJECT_ROOT "data".
Definition CREDENTIALS_PATH : string :=
  os_path_join PROJECT_ROOT "credentials.json".

Definition failed_file_record (pdf_file : string) (e : Exception)
  : log_record :=
  (ERROR, "Failed to load or process " +:+ pdf_file +:+ ". Error: "
            +:+ str_exc e).

(** [for pdf_file in pdf_files: try: ... except Exception: continue],
    carrying the log and [loaded_docs]. *)
Fixpoint load_pdf_files (pdf_files : list string)
    (log : list log_record) (loaded_docs : list Document)
  : list log_record * list Document :=
  match pdf_files with
  | [] => (log, loaded_docs)
  | pdf_file :: rest =>
      let file_path := os_path_join LOCAL_DATA_PATH pdf_file in
      match pdf_load env file_path with
      | Ok docs =>
          load_pdf_files rest
            (log ++ [(INFO, "Successfully loaded " +:+ pdf_file)])
            (loaded_docs ++ docs)
      | Raise e =>
          load_pdf_files rest
            (log ++ [failed_file_record pdf_file e])
            loaded_docs
      end
  end.

Definition missing_dir_record : log_record :=
  (WARNING, "Local data directory not found at: " +:+ LOCAL_DATA_PATH
              +:+ ". Skipping local ingestion.").

Definition load_docs_from_local_folder
  : list log_record * result (list Document) :=
  match data_dir env with
  | None => ([missing_dir_record], Ok [])
  | Some listing =>
      let log :=
        [(INFO, "Loading documents from local directory: "
                  +:+ LOCAL_DATA_PATH)] in
      match listing with
      | Raise e => (log, Raise e)
      | Ok names =>
          let pdf_files :=
            List.filter (fun f => endswith f ".pdf") names in
          let '(log, loaded_docs) := load_pdf_files pdf_files log [] in
          (log ++ [(INFO, "Loaded a total of "
                            +:+ pretty (length loaded_docs)
                            +:+ " documents from the local folder.")],
           Ok loaded_docs)
      end
  end.

Definition missing_credentials_record : log_record :=
  (WARNING, "Google Drive credentials not found at " +:+ CREDENTIALS_PATH
              +:+ ". Skipping Google Drive ingestion.").

Definition failed_gdrive_record (e : Exception) : log_record :=
  (ERROR, "Failed to load documents from Google Drive. Error: "
            +:+ str_exc e).

Definition load_docs_from_gdrive : list log_record * list Document :=
  if credentials_exist env then
    let log :=
      [(INFO, "Loading documents from Google Drive folder: "
                +:+ google_drive_folder_id settings)] in
    match gdrive_load env (google_drive_folder_id settings) with
    | Ok docs =>
        (log ++ [(INFO, "Loaded " +:+ pretty (length docs)
                          +:+ " documents from Google Drive.")],
         docs)
    | Raise e => (log ++ [failed_gdrive_record e], [])
    end
  else ([missing_credentials_record], []).

(** Step 1 of [main]: [all_docs = local_docs + gdrive_docs]. *)
Definition main_load_documents
  : list log_record * result (list Document) :=
  let log := [(INFO, "Starting ingestion process...")] in
  match load_docs_from_local_folder with
  | (log_local, Raise e) => (log ++ log_local, Raise e)
  | (log_local, Ok local_docs) =>
      let '(log_gdrive, gdrive_docs) := load_docs_from_gdrive in
      (log ++ log_local ++ log_gdrive, Ok (local_docs ++ gdrive_docs))
  end.
End loaders.

(** The documents of the [.pdf] entries that load, in listing order. *)
Definition loadable_docs (root : string) (env : sources)
    (names : list string) : list Document :=
  flat_map
    (fun f =>
       match pdf_load env (os_path_join (LOCAL_DATA_PATH root) f) with
       | Ok docs => docs
       | Raise _ => []
       end)
    (List.filter (fun f => endswith f ".pdf") names).

(** The record the loop writes for one file. *)
Definition file_record (root : string) (env : sources) (pdf_file : string)
  : log_record :=
  match pdf_load env (os_path_join (LOCAL_DATA_PATH root) pdf_file) with
  | Ok _ => (INFO, "Successfully loaded " +:+ pdf_file)
  | Raise e => failed_file_record pdf_file e
  end.

(** The documents of the sources that answer: the loadable files of a
    listed directory, and the remote folder when the credentials exist
    and the remote load returns. *)
Definition local_docs_available (root : string) (env : sources)
  : list Document :=
  match data_dir env with
  | Some (Ok names) => loadable_docs root env names
  | _ => []
  end.

Definition gdrive_docs_available (settings : Settings) (env : sources)
  : list Document :=
  if credentials_exist env then
    match gdrive_load env (google_drive_folder_id settings) with
    | Ok docs => docs
    | Raise _ => []
    end
  else [].

(** The data directory is absent or can be listed. *)
Definition listable (env : sources) : bool :=
  match data_dir env with
  | Some (Raise _) => false
  | _ => true
  end.

(** *** Index preparation *)

(** Field mappings, as the dictionaries under ["properties"]. *)
Inductive field_mapping :=
| Text
| Keyword
| Integer
| RankFeatures
| DenseVector (dims : Z) (index : bool) (similarity : string)
| Object (properties : list (string * field_mapping)).

Definition properties_of (m : field_mapping)
  : option (list (string * field_mapping)) :=
  match m with
  | Object properties => Some properties
  | _ => None
  end.

(** The mapping of a dotted field path such as [metadata.filename]. *)
Fixpoint lookup_field (path : list string)
    (properties : list (string * field_mapping)) : option field_mapping :=
  match path with
  | [] => None
  | [name] => assoc name properties
  | name :: rest =>
      sub ← assoc name properties ≫= properties_of;
      lookup_field rest sub
  end.

(** The [mappings] literal of [create_index_if_not_exists]. *)
Definition mappings : list (string * field_mapping) :=
  [ ("text", Text);
    ("vector", DenseVector 384 true "cosine");
    ("text_expansion", RankFeatures);
    ("metadata",
      Object [ ("filename", Keyword);
               ("drive_url", Keyword);
               ("chunk_id", Integer);
               ("page", Integer) ]) ].

(** The index-admin surface of the client, over the indices the
    cluster holds.  Creating an index that exists is refused. *)
Inductive indices_call :=
| IndicesExists (index : string)
| IndicesCreate (index : string) (body : list (string * field_mapping))
| IndicesDelete (index : string)
| IndicesRefresh (index : string).

Definition indices_exists
    (cluster : gmap string (list (string * field_mapping)))
    (index : string) : bool :=
  bool_decide (is_Some (cluster !! index)).

Definition indices_create
    (cluster : gmap string (list (string * field_mapping)))
    (index : string) (body : list (string * field_mapping))
  : result (gmap string (list (string * field_mapping))) :=
  if indices_exists cluster index
  then Raise (BadRequestError "resource_already_exists_exception")
  else Ok (<[index := body]> cluster).

Record admin_run := {
  cluster_after : gmap string (list (string * field_mapping));
  issued : list indices_call;
  logged : list log_record;
  outcome : result unit
}.

Definition create_index_if_not_exists
    (client : gmap string (list (string * field_mapping)))
    (index_name : string) : admin_run :=
  if indices_exists client index_name then
    {| cluster_after := client;
       issued := [IndicesExists index_name];
       logged := [(INFO, "Index '" +:+ index_name
                           +:+ "' already exists. Skipping creation.")];
       outcome := Ok () |}
  else
    let log :=
      [(INFO, "Creating index '" +:+ index_name
                +:+ "' with custom mappings.")] in
    let calls :=
      [IndicesExists index_name; IndicesCreate index_name mappings] in
    match indices_create client index_name mappings with
    | Ok cluster =>
        {| cluster_after := cluster;
           issued := calls;
           logged := log ++ [(INFO, "Index created successfully.")];
           outcome := Ok () |}
    | Raise e =>
        {| cluster_after := client;
           issued := calls;
           logged := log;
           outcome := Raise e |}
    end.

(** The chunks on which [os.path.basename] accepts the [source]. *)
Definition source_is_path (chunk : Document) : bool :=
  match metadata chunk !! "source" with
  | Some (VInt _) => false
  | _ => true
  end.

Definition chunk_id_of (chunk : Document) : option value :=
  metadata chunk !! "chunk_id".

(** *** The pipeline: [main] *)

(** [client.indices.refresh(index=...)]: refused for a missing index. *)
Definition indices_refresh
    (cluster : gmap string (list (string * field_mapping)))
    (index : string) : result unit :=
  if indices_exists cluster index
  then Ok ()
  else Raise (NotFoundError "index_not_found_exception").

(** The calls [main] makes to the storage backend: index administration,
    and the bulk write of [ElasticsearchStore.from_documents]. *)
Inductive pipeline_call :=
| Admin (call : indices_call)
| FromDocuments (index : string) (chunks : list Document).

Record pipeline_run := {
  pipeline_log : list log_record;
  pipeline_calls : list pipeline_call;
  pipeline_cluster : gmap string (list (string * field_mapping));
  pipeline_outcome : result unit
}.

Section pipeline.
Variable RecursiveCharacterTextSplitter :
  Z -> Z -> list Document -> list Chunk * gmap positive (gmap string value).
Variable PROJECT_ROOT : string.
Variable settings : Settings.
Variable elastic : Elastic.
Variable env : sources.
(** [HuggingFaceEmbeddings(model_name=...)] loads the model; it is taken
    as given, and may raise. *)
Variable HuggingFaceEmbeddings : string -> result unit.
(** [ElasticsearchStore.from_documents(chunks, embeddings,
    es_connection=es_client, index_name=...)] embeds the chunks and
    writes them in bulk; it is taken as given: it returns or raises, and
    leaves the cluster in some state. *)
Variable from_documents :
  list Document -> string -> gmap string (list (string * field_mapping)) ->
  result unit * gmap string (list (string * field_mapping)).

Definition main (client : gmap string (list (string * field_mapping)))
  : pipeline_run :=
  match main_load_documents PROJECT_ROOT settings env with
  | (log, Raise e) =>
      {| pipeline_log := log; pipeline_calls := [];
         pipeline_cluster := client; pipeline_outcome := Raise e |}
  | (log, Ok []) =>
      {| pipeline_log :=
           log ++ [(WARNING, "No documents found. Exiting ingestion.")];
         pipeline_calls := [];
         pipeline_cluster := client; pipeline_outcome := Ok () |}
  | (log, Ok all_docs) =>
      let log :=
        log ++ [(INFO, "Total documents loaded: "
                         +:+ pretty (length all_docs))] in
      let chunking :=
        chunk_documents RecursiveCharacterTextSplitter settings all_docs in
      let log := log ++ chunking_log chunking in
      match chunks_returned chunking with
      | Raise e =>
          {| pipeline_log := log; pipeline_calls := [];
             pipeline_cluster := client; pipeline_outcome := Raise e |}
      | Ok chunks =>
          match HuggingFaceEmbeddings (embedding_model_name settings) with
          | Raise e =>
              {| pipeline_log := log; pipeline_calls := [];
                 pipeline_cluster := client; pipeline_outcome := Raise e |}
          | Ok _ =>
              let log := log ++ [(INFO, "Connecting to Elasticsearch...")] in
              match get_es_client elastic with
              | (log_es, Raise e) =>
                  {| pipeline_log := log ++ log_es; pipeline_calls := [];
                     pipeline_cluster := client;
                     pipeline_outcome := Raise e |}
              | (log_es, Ok _) =>
                  let prepared :=
                    create_index_if_not_exists client (index_name settings) in
                  let log := log ++ log_es ++ logged prepared in
                  let calls := Admin <$> issued prepared in
                  match outcome prepared with
                  | Raise e =>
                      {| pipeline_log := log; pipeline_calls := calls;
                         pipeline_cluster := cluster_after prepared;
                         pipeline_outcome := Raise e |}
                  | Ok _ =>
                      let log :=
                        log ++ [(INFO, "Indexing chunks into Elasticsearch index: "
                                         +:+ index_name settings)] in
                      let documents :=
                        snapshot (dicts_after chunking) <$> chunks in
                      let calls :=
                        calls ++ [FromDocuments (index_name settings)
                                    documents] in
                      match from_documents documents (index_name settings)
                              (cluster_after prepared) with
                      | (Raise e, cluster) =>
                          {| pipeline_log := log; pipeline_calls := calls;
                             pipeline_cluster := cluster;
                             pipeline_outcome := Raise e |}
                      | (Ok _, cluster) =>
                          let calls :=
                            calls ++ [Admin (IndicesRefresh
                                               (index_name settings))] in
                          match indices_refresh cluster
                                  (index_name settings) with
                          | Raise e =>
                              {| pipeline_log := log; pipeline_calls := calls;
                                 pipeline_cluster := cluster;
                                 pipeline_outcome := Raise e |}
                          | Ok _ =>
                              {| pipeline_log :=
                                   log ++ [(INFO, "Ingestion process completed successfully.")];
                                 pipeline_calls := calls;
                                 pipeline_cluster := cluster;
                                 pipeline_outcome := Ok () |}
                          end
                      end
                  end
              end
          end
      end
  end.
End pipeline.

End ingestion.

(** ** app/retriever.py *)

Module retriever.

Definition get_es_client (settings : config.Elastic)
  : list log_record * es_client_args :=
  if truthy_opt (config.elastic_cloud_id settings) then
    ([(INFO, "Connecting to Elastic Cloud: "
               +:+ default "None" (config.elastic_cloud_id settings))],
     CloudClient (config.elastic_cloud_id settings)
       (config.elastic_api_key settings))
  else if truthy_str (config.elastic_url settings)
          && truthy_opt (config.elastic_api_key settings) then
    ([(INFO, "Connecting to Elastic URL with API Key: "
               +:+ config.elastic_url settings)],
     HostsClient (config.elastic_url settings)
       (config.elastic_api_key settings))
  else
    ([(INFO, "Connecting to Elastic URL (unauthenticated): "
               +:+ config.elastic_url settings)],
     HostsClient (config.elastic_url settings) None).

(** A hit of a search response: the keys of [hit["_source"]] that the
    retriever reads; [None] when the stored document lacks the key. *)
Record hit := {
  text_content : option string;
  hit_metadata : option (gmap string value)
}.

(** Query clauses, as the dictionaries the retriever builds:
    [{"match": {field: {"query": q}}}] and
    [{"text_expansion": {field: {"model_id": m, "model_text": q}}}]. *)
Inductive query_clause :=
| Match (field : string) (query : string)
| TextExpansion (field : string) (model_id : string) (model_text : string).

(** [{"rrf": {"rank_constant": c, "window_size": w}}] *)
Inductive rank_config :=
| Rrf (rank_constant : Z) (window_size : Z).

Section hybrid.
(** Dense vectors are opaque to the retriever. *)
Context {vector : Type}.

Record knn_clause := {
  field : string;
  query_vector : vector;
  knn_k : Z;
  num_candidates : Z
}.

(** The keyword arguments of one [client.search] call; [None] for an
    argument that is not passed. *)
Record search_call := {
  index : string;
  query : option query_clause;
  knn : option knn_clause;
  sub_searches : option (list query_clause);
  rank : option rank_config;
  size : Z
}.

Record HybridRetriever := {
  client : search_call -> result (list hit);
  index_name : string;
  embedding_model : string -> result vector;
  k : Z;
  mode : string
}.

Record retrieval := {
  issued : list search_call;
  logged : list log_record;
  returned : result (list Document)
}.

(** [Document(page_content=hit["_source"]["text_content"],
              metadata=hit["_source"]["metadata"])] *)
Definition document_of_hit (h : hit) : result Document :=
  match text_content h with
  | None => Raise (KeyError "text_content")
  | Some text =>
      match hit_metadata h with
      | None => Raise (KeyError "metadata")
      | Some md => Ok {| page_content := text; metadata := md |}
      end
  end.

(** [for hit in response["hits"]["hits"]: docs.append(...)] *)
Fixpoint documents_of_hits (hits : list hit) : result (list Document) :=
  match hits with
  | [] => mret []
  | h :: rest =>
      doc ← document_of_hit h;
      docs ← documents_of_hits rest;
      mret (doc :: docs)
  end.

Definition elser_query (query : string) : query_clause :=
  TextExpansion "elser_embedding_field" "elser" query.

(** The keyword arguments of the search call of each branch. *)
Definition elser_only_call (self : HybridRetriever) (query : string)
  : search_call :=
  {| index := index_name self;
     query := Some (elser_query query);
     knn := None;
     sub_searches := None;
     rank := None;
     size := k self |}.

Definition hybrid_call (self : HybridRetriever) (query : string)
    (query_vector : vector) : search_call :=
  let knn_query :=
    {| field := "vector_field";
       query_vector := query_vector;
       knn_k := k self;
       num_candidates := 50 |} in
  let bm25_query := Match "text_content" query in
  let rank_config := Rrf 20 100 in
  {| index := index_name self;
     query := None;
     knn := Some knn_query;
     sub_searches := Some [bm25_query; elser_query query];
     rank := Some rank_config;
     size := k self |}.

(** [self.client.search(...)]: the call reaches the client, which
    answers or raises; the calls made so far are kept in order. *)
Definition client_search (self : HybridRetriever) (call : search_call)
    (calls : list search_call) : result (list hit) * list search_call :=
  (client self call, calls ++ [call]).

(** The body of the [try] block, from the calls made so far: the branch
    for [self.mode] makes its search call (the hybrid branch after
    [self.embedding_model.embed_query(query)], which may raise), then
    the hits are shaped. *)
Definition search_and_shape (self : HybridRetriever) (query : string)
    (calls : list search_call)
  : result (list Document) * list search_call :=
  let '(response, calls) :=
    if bool_decide (mode self = "elser_only") then
      client_search self (elser_only_call self query) calls
    else
      match embedding_model self query with
      | Raise e => (Raise e, calls)
      | Ok query_vector =>
          client_search self (hybrid_call self query query_vector) calls
      end in
  (response ≫= documents_of_hits, calls).

Definition _get_relevant_documents (self : HybridRetriever)
    (query : string) : retrieval :=
  let log :=
    [(INFO, "Executing retrieval with mode: '" +:+ mode self +:+ "'")] in
  match search_and_shape self query [] with
  | (Ok docs, calls) =>
      {| issued := calls;
         logged := log;
         returned := Ok docs |}
  | (Raise e, calls) =>
      {| issued := calls;
         logged :=
           log ++ [(ERROR, "Error during Elasticsearch retrieval: "
                             +:+ str_exc e)];
         returned := Ok [] |}
  end.

(** The search call the branch for [self.mode] gets to make: none when
    embedding the query raises. *)
Definition search_call_of (self : HybridRetriever) (query : string)
  : result search_call :=
  if bool_decide (mode self = "elser_only") then
    Ok (elser_only_call self query)
  else
    query_vector ← embedding_model self query;
    mret (hybrid_call self query query_vector).

(** Embedding the query fails: the hybrid branch is taken and
    [embed_query] raises. *)
Definition embedding_failure (self : HybridRetriever) (query : string)
  : Prop :=
  mode self <> "elser_only" /\
  exists e, embedding_model self query = Raise e.

(** The storage backend fails the query: the search call is made and
    raises, or a hit comes back without a field the retriever reads. *)
Definition backend_failure (self : HybridRetriever) (query : string)
  : Prop :=
  match search_call_of self query with
  | Raise _ => False
  | Ok call =>
      match client self call with
      | Raise _ => True
      | Ok hits =>
          Exists (fun h => text_content h = None \/ hit_metadata h = None)
                 hits
      end
  end.

(** The index fields a clause ranks on. *)
Definition clause_field (c : query_clause) : string :=
  match c with
  | Match f _ => f
  | TextExpansion f _ _ => f
  end.

(** Every index field a search call names, as dotted paths. *)
Definition fields_queried (call : search_call) : list (list string) :=
  (from_option (fun c => [[clause_field c]]) [] (query call))
  ++ (from_option (fun c => [[field c]]) [] (knn call))
  ++ (from_option (map (fun c => [clause_field c])) []
        (sub_searches call)).
End hybrid.

Arguments knn_clause : clear implicits.
Arguments search_call : clear implicits.
Arguments HybridRetriever : clear implicits.
Arguments retrieval : clear implicits.

Section factory.
Context {vector : Type}.
(** [Elasticsearch(...)] and [HuggingFaceEmbeddings(model_name=...)] are
    taken as given: either may raise; a client answers search calls,
    a loaded model embeds queries, or raises. *)
Variable Elasticsearch :
  es_client_args -> result (search_call vector -> result (list hit)).
Variable HuggingFaceEmbeddings :
  string -> result (string -> result vector).
Variable settings : config.Settings.
Variable elastic : config.Elastic.

Definition get_retriever (mode : string) (k : Z)
  : list log_record * result (HybridRetriever vector) :=
  let '(log, args) := get_es_client elastic in
  (log,
   es_client ← Elasticsearch args;
   embedding_model ←
     HuggingFaceEmbeddings (config.embedding_model_name settings);
   mret {| client := es_client;
           index_name := config.index_name settings;
           embedding_model := embedding_model;
           k := k;
           mode := mode |}).
End factory.

End retriever.

(** ** JSON values exchanged between the console and the API *)

Inductive json :=
| JNull
| JStr (s : string)
| JArr (items : list json)
| JObj (fields : list (string * json)).

(** ** app/chains.py *)

Module chains.

Definition newline : string := String "010"%char "".
Definition quote : string := String "034"%char "".

(** [PROMPT_TEMPLATE], cut at its two placeholders. *)
Definition PROMPT_BEFORE_CONTEXT : string :=
  newline
  +:+ "**Safety Guardrail:** Your primary task is to answer the user's question based *only* on the provided context."
  +:+ newline
  +:+ "Do not use any external knowledge or information you were trained on."
  +:+ newline +:+ newline
  +:+ "**Instructions:**" +:+ newline
  +:+ "1.  Read the user's question and the context carefully." +:+ newline
  +:+ "2.  If the context contains enough information to answer the question, formulate a concise answer."
  +:+ newline
  +:+ "3.  Cite the source document's filename for each piece of information you use. For example: "
  +:+ quote +:+ "The sky is blue [source: science_paper.pdf]." +:+ quote
  +:+ newline
  +:+ "4.  If the context does not contain information to answer the question, you MUST respond with exactly: "
  +:+ quote +:+ "I don't have enough information to answer that question."
  +:+ quote +:+ newline
  +:+ "5.  Refuse to answer any questions that are harmful, unethical, or off-topic."
  +:+ newline +:+ newline
  +:+ "**Context:**" +:+ newline.

Definition PROMPT_BEFORE_QUESTION : string :=
  newline +:+ newline +:+ "**Question:**" +:+ newline.

Definition PROMPT_AFTER_QUESTION : string :=
  newline +:+ newline +:+ "**Answer:**" +:+ newline.

(** [ChatPromptTemplate.from_template(PROMPT_TEMPLATE)] formatted with a
    context and a question. *)
Definition prompt (context question : string) : string :=
  PROMPT_BEFORE_CONTEXT +:+ context +:+ PROMPT_BEFORE_QUESTION
  +:+ question +:+ PROMPT_AFTER_QUESTION.

Definition format_doc (doc : Document) : string :=
  "Source Filename: "
  +:+ format_value (default (VStr "Unknown") (metadata doc !! "filename"))
  +:+ newline +:+ "Content: " +:+ page_content doc.

Definition format_docs (docs : list Document) : string :=
  String.concat (newline +:+ newline) (map format_doc docs).

(** What the chain returns: [{"answer": ..., "context": ...}]. *)
Record chain_result := {
  answer : string;
  context : list Document
}.

Section chain.
Context {vector : Type}.
(** The model call [llm | StrOutputParser()] on the formatted prompt; it
    is taken as given, and may raise. *)
Variable llm : string -> result string.
Variable Elasticsearch :
  es_client_args ->
  result (retriever.search_call vector -> result (list retriever.hit)).
Variable HuggingFaceEmbeddings :
  string -> result (string -> result vector).
Variable settings : config.Settings.
Variable elastic : config.Elastic.

(** [chain.invoke({"question": question})]: the retriever is run on the
    question, the documents are formatted into the prompt, the model
    answers, and the documents are passed along for citation. *)
Definition invoke (retriever : retriever.HybridRetriever vector)
    (question : string) : list log_record * result chain_result :=
  let retrieval := retriever._get_relevant_documents retriever question in
  (retriever.logged retrieval,
   docs ← retriever.returned retrieval;
   answer ← llm (prompt (format_docs docs) question);
   mret {| answer := answer; context := docs |}).

Definition get_full_chain
    (retriever : option (retriever.HybridRetriever vector))
  : list log_record
    * result (string -> list log_record * result chain_result) :=
  match retriever with
  | Some retriever => ([], Ok (invoke retriever))
  | None =>
      let '(log, created) :=
        retriever.get_retriever Elasticsearch HuggingFaceEmbeddings
          settings elastic "hybrid" 5 in
      (log, retriever ← created; mret (invoke retriever))
  end.
End chain.

End chains.

(** ** app/api.py *)

Module api.

Record QueryRequest := {
  question : string;
  retrieval_mode : string
}.

Record Citation := {
  filename : string;
  snippet : string;
  drive_url : option string
}.

Record QueryResponse := {
  answer : string;
  citations : list Citation
}.

(** What an endpoint does: it returns its response model, or raises an
    [HTTPException]. *)
Inductive endpoint_result (A : Type) :=
| Returned (a : A)
| HTTPException (status_code : Z) (detail : string).
Arguments Returned {A} a.
Arguments HTTPException {A} status_code detail.

(** The request body as the [QueryRequest] model reads it: [question]
    is required, [retrieval_mode] defaults to ["hybrid"], both are
    strings, and keys the model does not declare are ignored.  [None]
    when the body is refused before the endpoint runs. *)
Definition parse_QueryRequest (body : json) : option QueryRequest :=
  match body with
  | JObj fields =>
      match assoc "question" fields with
      | Some (JStr question) =>
          match assoc "retrieval_mode" fields with
          | None =>
              Some {| question := question; retrieval_mode := "hybrid" |}
          | Some (JStr mode) =>
              Some {| question := question; retrieval_mode := mode |}
          | Some _ => None
          end
      | _ => None
      end
  | _ => None
  end.

Definition json_of_Citation (c : Citation) : json :=
  JObj [ ("filename", JStr (filename c));
         ("snippet", JStr (snippet c));
         ("drive_url", from_option JStr JNull (drive_url c)) ].

(** The body of a [200] answer of [/query]. *)
Definition json_of_QueryResponse (r : QueryResponse) : json :=
  JObj [ ("answer", JStr (answer r));
         ("citations", JArr (map json_of_Citation (citations r))) ].

Section query.
Context {vector : Type}.
Variable llm : string -> result string.
Variable Elasticsearch :
  es_client_args ->
  result (retriever.search_call vector -> result (list retriever.hit)).
Variable HuggingFaceEmbeddings :
  string -> result (string -> result vector).
Variable settings : config.Settings.
Variable elastic : config.Elastic.
(** The text of the error the [Citation] model raises for a field that
    is not a string. *)
Variable validation_error : string -> value -> string.

Definition str_field (name : string) (v : value) : result string :=
  match v with
  | VStr s => Ok s
  | VInt _ => Raise (ValueError (validation_error name v))
  end.

(** [Citation(filename=doc.metadata.get("filename", "Unknown"),
             snippet=doc.page_content,
             drive_url=doc.metadata.get("drive_url"))] *)
Definition citation_of (doc : Document) : result Citation :=
  filename ←
    str_field "filename" (default (VStr "Unknown") (metadata doc !! "filename"));
  drive_url ←
    match metadata doc !! "drive_url" with
    | None => mret None
    | Some v => url ← str_field "drive_url" v; mret (Some url)
    end;
  mret {| filename := filename;
          snippet := page_content doc;
          drive_url := drive_url |}.

Fixpoint citations_of (docs : list Document) : result (list Citation) :=
  match docs with
  | [] => mret []
  | doc :: rest =>
      citation ← citation_of doc;
      citations ← citations_of rest;
      mret (citation :: citations)
  end.

Record query_run := {
  query_log : list log_record;
  query_result : endpoint_result QueryResponse
}.

(** The [try] block of [query], with the records logged on the way. *)
Definition query_body (request : QueryRequest)
  : list log_record * result QueryResponse :=
  let '(log_retriever, created) :=
    retriever.get_retriever Elasticsearch HuggingFaceEmbeddings
      settings elastic (retrieval_mode request) 5 in
  match created with
  | Raise e => (log_retriever, Raise e)
  | Ok retriever =>
      let '(log_chain, chain) :=
        chains.get_full_chain llm Elasticsearch HuggingFaceEmbeddings
          settings elastic (Some retriever) in
      match chain with
      | Raise e => (log_retriever ++ log_chain, Raise e)
      | Ok chain =>
          let log :=
            log_retriever ++ log_chain
            ++ [(INFO, "Invoking RAG chain...")] in
          let '(log_invoke, result) := chain (question request) in
          match result with
          | Raise e => (log ++ log_invoke, Raise e)
          | Ok result =>
              let log :=
                log ++ log_invoke
                ++ [(INFO, "RAG chain invocation complete.")] in
              (log,
               citations ← citations_of (chains.context result);
               mret {| answer := chains.answer result;
                       citations := citations |})
          end
      end
  end.

Definition query (request : QueryRequest) : query_run :=
  let log :=
    [(INFO, "Received query: '" +:+ question request +:+ "' with mode: '"
              +:+ retrieval_mode request +:+ "'")] in
  match query_body request with
  | (log_body, Ok response) =>
      {| query_log := log ++ log_body; query_result := Returned response |}
  | (log_body, Raise e) =>
      {| query_log :=
           log ++ log_body
           ++ [(ERROR, "An error occurred during query processing: "
                         +:+ str_exc e)];
         query_result :=
           HTTPException 500
             ("An internal server error occurred: " +:+ str_exc e) |}
  end.

(** [/query] as a client meets it: the body is read as a
    [QueryRequest] and the endpoint runs on it; [None] for a body that
    is refused. *)
Definition post_query (body : json) : option query_run :=
  query <$> parse_QueryRequest body.
End query.

(** Metadata whose [filename] and [drive_url], when present, are
    strings: what the [Citation] model accepts. *)
Definition citable (md : gmap string value) : Prop :=
  (forall n, md !! "filename" <> Some (VInt n)) /\
  (forall n, md !! "drive_url" <> Some (VInt n)).

(** A citation that renders a document: its text as the snippet, its
    [filename] (or ["Unknown"]) and its [drive_url] (or none). *)
Definition cites (text : string) (md : gmap string value) (c : Citation)
  : Prop :=
  snippet c = text /\
  VStr (filename c) = default (VStr "Unknown") (md !! "filename") /\
  VStr <$> drive_url c = md !! "drive_url".

End api.

(** ** app/ui.py *)

Module ui.

Definition mode_map : list (string * string) :=
  [ ("Hybrid (ELSER + Dense + BM25)", "hybrid");
    ("ELSER-only", "elser") ].

(** [selected_mode = mode_map[retrieval_mode]] *)
Definition selected_mode (retrieval_mode : string) : result string :=
  match assoc retrieval_mode mode_map with
  | Some m => Ok m
  | None => Raise (KeyError retrieval_mode)
  end.

(** [payload = {"question": prompt, "mode": selected_mode}] *)
Definition payload (prompt selected_mode : string) : json :=
  JObj [ ("question", JStr prompt); ("mode", JStr selected_mode) ].

(** [result.get("answer", "Sorry, something went wrong.")] and
    [result.get("sources", [])] on the decoded body of the answer. *)
Definition answer_of (result : list (string * json)) : json :=
  default (JStr "Sorry, something went wrong.") (assoc "answer" result).

Definition sources_of (result : list (string * json)) : json :=
  default (JArr []) (assoc "sources" result).

End ui.

(** * Sample inputs *)

Module sample.

(** Two pages of one local file and a page of a remote file, each
    shorter than a chunk. *)
Definition two_pages : list Document :=
  [ {| page_content := "first page";
       metadata := {[ "source" := VStr "/srv/app/data/report.pdf";
                      "page" := VInt 0 ]} |};
    {| page_content := "second page";
       metadata := {[ "source" := VStr "/srv/app/data/report.pdf";
                      "page" := VInt 1 ]} |} ].

Definition remote_page : Document :=
  {| page_content := "scanned text";
     metadata := {[ "file_id" := VStr "1AbC" ]} |}.

(** A splitter for such documents: one chunk per document, with a copy
    of its metadata in a dictionary of its own, at addresses [l],
    [l + 1], ... *)
Fixpoint one_chunk_each_from (l : positive) (docs : list Document)
  : list Chunk * gmap positive (gmap string value) :=
  match docs with
  | [] => ([], ∅)
  | d :: rest =>
      let '(chunks, h) := one_chunk_each_from (Pos.succ l) rest in
      ({| chunk_content := page_content d; metadata_ref := l |} :: chunks,
       <[l := metadata d]> h)
  end.

Definition one_chunk_each (_ _ : Z) (docs : list Document)
  : list Chunk * gmap positive (gmap string value) :=
  one_chunk_each_from 1 docs.

(** A splitter that lets two chunks share one dictionary. *)
Definition shared_dict (_ _ : Z) (docs : list Document)
  : list Chunk * gmap positive (gmap string value) :=
  ([ {| chunk_content := "first half"; metadata_ref := 1 |};
     {| chunk_content := "second half"; metadata_ref := 1 |} ],
   {[ 1%positive := ∅ ]}).

(** A cluster that already holds the index, under an older mapping. *)
Definition populated_cluster
  : gmap string (list (string * ingestion.field_mapping)) :=
  {[ "rag-internship-demo" := [("text", ingestion.Text)] ]}.

(** A data directory with two readable files, a corrupt one and a file
    that is not a PDF; no credentials for the remote store. *)
Definition page_of (name : string) : Document :=
  {| page_content := "text of " +:+ name;
     metadata := {[ "source" := VStr name; "page" := VInt 0 ]} |}.

Definition three_pdfs : ingestion.sources :=
  {| ingestion.data_dir :=
       Some (Ok ["a.pdf"; "broken.pdf"; "notes.txt"; "c.pdf"]);
     ingestion.pdf_load := fun file_path =>
       if bool_decide (file_path = "/srv/app/data/broken.pdf")
       then Raise (ValueError "EOF marker not found")
       else Ok [page_of file_path];
     ingestion.credentials_exist := false;
     ingestion.gdrive_load := fun _ =>
       Raise (ConnectionError "unreachable") |}.

(** Retrievers over a backend that cannot be reached; vectors are
    lists of integers here. *)
Definition offline (mode : string) : retriever.HybridRetriever (list Z) :=
  {| retriever.client := fun _ => Raise (ConnectionError "Connection refused");
     retriever.index_name := "rag-internship-demo";
     retriever.embedding_model := fun _ => Ok [0; 1; 0]%Z;
     retriever.k := 5;
     retriever.mode := mode |}.

(** A page whose loader recorded a number as its [source]. *)
Definition numbered_page : Document :=
  {| page_content := "appendix"; metadata := {[ "source" := VInt 7 ]} |}.

(** A backend that answers every search with two hits. *)
Definition two_hits : list retriever.hit :=
  [ {| retriever.text_content := Some "X is a letter.";
       retriever.hit_metadata := Some {[ "filename" := VStr "abc.pdf" ]} |};
    {| retriever.text_content := Some "X marks the spot.";
       retriever.hit_metadata := Some ∅ |} ].

(** A retriever whose embedding model raises on every query, over a
    backend that would answer. *)
Definition embedding_down (mode : string)
  : retriever.HybridRetriever (list Z) :=
  {| retriever.client := fun _ => Ok [];
     retriever.index_name := "rag-internship-demo";
     retriever.embedding_model := fun _ =>
       Raise (RuntimeError "CUDA out of memory");
     retriever.k := 5;
     retriever.mode := mode |}.

Definition online (mode : string) : retriever.HybridRetriever (list Z) :=
  {| retriever.client := fun _ => Ok two_hits;
     retriever.index_name := "rag-internship-demo";
     retriever.embedding_model := fun _ => Ok [0; 1; 0]%Z;
     retriever.k := 5;
     retriever.mode := mode |}.

(** An empty data directory and no credentials; an embedding model that
    cannot be loaded; a bulk write that just succeeds. *)
Definition nothing_to_load : ingestion.sources :=
  {| ingestion.data_dir := Some (Ok ["notes.txt"]);
     ingestion.pdf_load := fun _ => Ok [];
     ingestion.credentials_exist := false;
     ingestion.gdrive_load := fun _ => Ok [] |}.

Definition no_model (_ : string) : result unit :=
  Raise (OSError "model not found").

Definition model_loaded (_ : string) : result unit := Ok ().

Definition bulk_ok (_ : list Document) (_ : string)
    (cluster : gmap string (list (string * ingestion.field_mapping)))
  : result unit * gmap string (list (string * ingestion.field_mapping)) :=
  (Ok (), cluster).

(** A deployment for the API: a cluster that cannot be reached or one
    that answers with [two_hits], a model that loads, and a language
    model that answers or is down. *)
Definition unreachable (_ : es_client_args)
  : result (retriever.search_call (list Z) -> result (list retriever.hit)) :=
  Ok (fun _ => Raise (ConnectionError "Connection refused")).

Definition reachable (_ : es_client_args)
  : result (retriever.search_call (list Z) -> result (list retriever.hit)) :=
  Ok (fun _ => Ok two_hits).

Definition embedder (_ : string) : result (string -> result (list Z)) :=
  Ok (fun _ => Ok [0; 1; 0]%Z).

Definition canned_llm (_ : string) : result string :=
  Ok "I don't have enough information to answer that question.".

Definition llm_down (_ : string) : result string :=
  Raise (ConnectionError "ollama is not running").

Definition no_text (_ : string) (_ : value) : string := "".

Definition ask (mode : string) : api.QueryRequest :=
  {| api.question := "What is X?"; api.retrieval_mode := mode |}.

(** A data path that exists but is a plain file, beside a remote store
    that would answer with one document. *)
Definition data_path_is_a_file : ingestion.sources :=
  {| ingestion.data_dir := Some (Raise (OSError "Not a directory"));
     ingestion.pdf_load := fun _ => Ok [];
     ingestion.credentials_exist := true;
     ingestion.gdrive_load := fun _ => Ok [remote_page] |}.

End sample.

(** * The path and string helpers on small inputs *)

Example basename_nested : basename "/srv/app/data/a.pdf" = "a.pdf".
Proof. reflexivity. Qed.
Example basename_plain : basename "a.pdf" = "a.pdf".
Proof. reflexivity. Qed.
Example basename_trailing_sep : basename "/a/b/" = "".
Proof. reflexivity. Qed.
Example endswith_pdf :
  endswith "x.pdf" ".pdf" = true /\ endswith "pdf" ".pdf" = false
  /\ endswith "a.pdfx" ".pdf" = false.
Proof. vm_compute. auto. Qed.
Example join_data : ingestion.os_path_join "/srv/app" "data" = "/srv/app/data".
Proof. reflexivity. Qed.

(** * Properties *)

(** ** Chunk enrichment *)

Section enrich_facts.
Import ingestion.

Lemma dict_at_insert_eq (h : gmap positive (gmap string value))
    (l : positive) (d : gmap string value) :
  dict_at (<[l := d]> h) l = d.
Proof. unfold dict_at. rewrite lookup_insert_eq. reflexivity. Qed.

Lemma dict_at_insert_ne (h : gmap positive (gmap string value))
    (l l' : positive) (d : gmap string value) :
  l <> l' -> dict_at (<[l := d]> h) l' = dict_at h l'.
Proof. intros Hne. unfold dict_at. rewrite lookup_insert_ne by done. reflexivity. Qed.

Lemma enrich_chunk_run (i : nat) (c : Chunk)
    (h : gmap positive (gmap string value)) :
  enrich_chunk i c h =
    ((enrich_dict i (dict_at h (metadata_ref c))).1,
     <[metadata_ref c := (enrich_dict i (dict_at h (metadata_ref c))).2]> h).
Proof.
  unfold enrich_chunk, enrich_dict, setitem, getitem_opt, lift.
  unfold mbind, run_bind, mret, run_ret. simpl.
  rewrite !dict_at_insert_eq.
  set (l := metadata_ref c). set (d := dict_at h l).
  destruct (<["chunk_id" := VInt (Z.of_nat i)]> d !! "source")
    as [[p|n]|]; simpl; rewrite ?dict_at_insert_eq, ?insert_insert_eq;
    try reflexivity.
  - destruct (_ !! "file_id"); simpl;
      rewrite ?dict_at_insert_eq, ?insert_insert_eq; reflexivity.
  - destruct (_ !! "file_id"); simpl;
      rewrite ?dict_at_insert_eq, ?insert_insert_eq; reflexivity.
Qed.

Lemma enrich_dict_ok (i : nat) (d : gmap string value) :
  source_is_path {| page_content := ""; metadata := d |} = true ->
  (enrich_dict i d).1 = Ok ().
Proof.
  unfold source_is_path, enrich_dict; simpl.
  rewrite lookup_insert_ne by done.
  destruct (d !! "source") as [[p|n]|]; simpl; congruence.
Qed.

(** The identifier is written first, whatever happens next. *)
Lemma enrich_dict_chunk_id (i : nat) (d : gmap string value) :
  (enrich_dict i d).2 !! "chunk_id" = Some (VInt (Z.of_nat i)).
Proof.
  unfold enrich_dict.
  destruct (_ !! "source") as [[p|n]|]; simpl;
    try destruct (_ !! "file_id"); simpl;
    rewrite ?(lookup_insert_ne _ "drive_url") by done;
    rewrite ?(lookup_insert_ne _ "filename") by done;
    apply lookup_insert_eq.
Qed.

Lemma enrich_dict_filename (i : nat) (d : gmap string value) :
  (enrich_dict i d).2 !! "filename" =
    match d !! "source" with
    | Some (VStr p) => Some (VStr (basename p))
    | _ => d !! "filename"
    end.
Proof.
  unfold enrich_dict. rewrite (lookup_insert_ne _ "chunk_id" "source") by done.
  destruct (d !! "source") as [[p|n]|]; simpl;
    try destruct (_ !! "file_id"); simpl;
    rewrite ?(lookup_insert_ne _ "drive_url") by done;
    rewrite ?lookup_insert_eq; try reflexivity;
    rewrite lookup_insert_ne by done; reflexivity.
Qed.

Lemma enrich_dict_drive_url (i : nat) (d : gmap string value) :
  (enrich_dict i d).1 = Ok () ->
  (enrich_dict i d).2 !! "drive_url" =
    match d !! "file_id" with
    | Some file_id => Some (VStr (drive_url_of file_id))
    | None => d !! "drive_url"
    end.
Proof.
  unfold enrich_dict. rewrite (lookup_insert_ne _ "chunk_id" "source") by done.
  destruct (d !! "source") as [[p|n]|]; simpl; try discriminate; intros _;
    rewrite ?(lookup_insert_ne _ "filename" "file_id") by done;
    rewrite (lookup_insert_ne _ "chunk_id" "file_id") by done;
    destruct (d !! "file_id"); simpl;
    rewrite ?lookup_insert_eq; try reflexivity;
    rewrite !lookup_insert_ne by done; reflexivity.
Qed.

(** On chunks that hold distinct dictionaries the loop runs to its end,
    leaves in each dictionary what the body makes of it at the chunk's
    position, and touches no other dictionary. *)
Lemma enrich_from_run (chunks : list Chunk) :
  forall i (h : gmap positive (gmap string value)),
    NoDup (metadata_ref <$> chunks) ->
    Forall (fun c => source_is_path (snapshot h c) = true) chunks ->
    exists h',
      enrich_from i chunks h = (Ok (), h') /\
      (forall j c, chunks !! j = Some c ->
         dict_at h' (metadata_ref c)
           = (enrich_dict (i + j) (dict_at h (metadata_ref c))).2) /\
      (forall l, l ∉ metadata_ref <$> chunks -> h' !! l = h !! l).
Proof.
  induction chunks as [|c rest IH]; intros i h Hnd Hall.
  - exists h. split; [reflexivity|]. split; [|reflexivity].
    intros j c Hj. discriminate.
  - rewrite fmap_cons in Hnd. apply NoDup_cons in Hnd as [Hfresh Hnd].
    inversion Hall as [|? ? Hc Hrest]; subst.
    set (l := metadata_ref c) in *.
    set (h1 := <[l := (enrich_dict i (dict_at h l)).2]> h).
    assert (Hsame : forall c', c' ∈ rest ->
              dict_at h1 (metadata_ref c') = dict_at h (metadata_ref c')).
    { intros c' Hin. apply dict_at_insert_ne. intros Heq. apply Hfresh.
      rewrite Heq. apply list_elem_of_fmap. eauto. }
    assert (Hrest1 : Forall (fun c => source_is_path (snapshot h1 c) = true)
                       rest).
    { rewrite Forall_forall in Hrest. apply Forall_forall. intros c' Hin.
      unfold snapshot. rewrite Hsame by exact Hin. apply (Hrest c' Hin). }
    destruct (IH (S i) h1 Hnd Hrest1) as (h' & Hrun & Hdicts & Hframe).
    exists h'. split; [|split].
    + simpl. unfold mbind, run_bind. rewrite enrich_chunk_run.
      fold l. fold h1. rewrite (enrich_dict_ok i (dict_at h l) Hc). exact Hrun.
    + intros [|j] c' Hj; simpl in Hj.
      * injection Hj as <-. fold l. rewrite Nat.add_0_r.
        unfold dict_at at 1. rewrite (Hframe l Hfresh).
        unfold h1. rewrite lookup_insert_eq. reflexivity.
      * rewrite (Hdicts j c' Hj).
        rewrite Hsame by (apply list_elem_of_lookup; eauto).
        replace (i + S j) with (S i + j) by lia. reflexivity.
    + intros l' Hl'. rewrite fmap_cons in Hl'.
      apply not_elem_of_cons in Hl' as [Hne Hl'].
      rewrite (Hframe l' Hl'). unfold h1. apply lookup_insert_ne.
      intros Heq. apply Hne. symmetry. exact Heq.
Qed.
End enrich_facts.

Lemma chunk_documents_run
    (splitter : Z -> Z -> list Document ->
                list Chunk * gmap positive (gmap string value))
    (settings : config.Settings) (docs : list Document)
    (chunks : list Chunk) (h : gmap positive (gmap string value)) :
  ingestion.text_splitter splitter settings docs = (chunks, h) ->
  NoDup (metadata_ref <$> chunks) ->
  Forall (fun c => ingestion.source_is_path (snapshot h c) = true) chunks ->
  ingestion.chunks_returned (ingestion.chunk_documents splitter settings docs)
    = Ok chunks /\
  forall i c, chunks !! i = Some c ->
    (ingestion.enrich_dict i (dict_at h (metadata_ref c))).1 = Ok () /\
    dict_at
      (ingestion.dicts_after
         (ingestion.chunk_documents splitter settings docs))
      (metadata_ref c)
    = (ingestion.enrich_dict i (dict_at h (metadata_ref c))).2.
Proof.
  intros Hsplit Hnd Hall. unfold ingestion.chunk_documents. rewrite Hsplit.
  destruct (enrich_from_run chunks 0 h Hnd Hall) as (h' & -> & Hdicts & _).
  simpl. split; [reflexivity|]. intros i c Hi. split.
  - apply enrich_dict_ok. rewrite Forall_forall in Hall.
    apply (Hall c). apply list_elem_of_lookup. eauto.
  - apply (Hdicts i c Hi).
Qed.

(** C6.  When the splitter hands over chunks that hold distinct
    metadata dictionaries, and a [source] they carry is a path,
    [chunk_documents] returns those chunks in the same order, and the
    chunk at position [i] (counting from 0) carries [chunk_id = i]: the
    identifiers are 0-based, pairwise distinct and strictly increasing
    in processing order, and they depend on nothing but the position, so
    a fixed input order always yields the same assignment. *)
Theorem chunk_ids_sequential
    (splitter : Z -> Z -> list Document ->
                list Chunk * gmap positive (gmap string value))
    (settings : config.Settings) (docs : list Document)
    (chunks : list Chunk) (h : gmap positive (gmap string value)) :
  ingestion.text_splitter splitter settings docs = (chunks, h) ->
  NoDup (metadata_ref <$> chunks) ->
  Forall (fun c => ingestion.source_is_path (snapshot h c) = true) chunks ->
  ingestion.chunks_returned (ingestion.chunk_documents splitter settings docs)
    = Ok chunks /\
  (forall i c, chunks !! i = Some c ->
     ingestion.chunk_id_of
       (snapshot
          (ingestion.dicts_after
             (ingestion.chunk_documents splitter settings docs)) c)
     = Some (VInt (Z.of_nat i))) /\
  (forall i j ci cj, chunks !! i = Some ci -> chunks !! j = Some cj ->
     ingestion.chunk_id_of
       (snapshot
          (ingestion.dicts_after
             (ingestion.chunk_documents splitter settings docs)) ci)
     = ingestion.chunk_id_of
         (snapshot
            (ingestion.dicts_after
               (ingestion.chunk_documents splitter settings docs)) cj) ->
     i = j) /\
  (forall i j ci cj, chunks !! i = Some ci -> chunks !! j = Some cj -> i < j ->
     exists a b,
       ingestion.chunk_id_of
         (snapshot
            (ingestion.dicts_after
               (ingestion.chunk_documents splitter settings docs)) ci)
       = Some (VInt a) /\
       ingestion.chunk_id_of
         (snapshot
            (ingestion.dicts_after
               (ingestion.chunk_documents splitter settings docs)) cj)
       = Some (VInt b) /\
       (a < b)%Z).
Proof.
  intros Hsplit Hnd Hall.
  destruct (chunk_documents_run splitter settings docs chunks h
              Hsplit Hnd Hall) as [Hret Hdicts].
  set (after := ingestion.dicts_after
                  (ingestion.chunk_documents splitter settings docs)) in *.
  assert (Hid : forall i c, chunks !! i = Some c ->
            ingestion.chunk_id_of (snapshot after c)
            = Some (VInt (Z.of_nat i))).
  { intros i c Hi. unfold ingestion.chunk_id_of, snapshot; simpl.
    destruct (Hdicts i c Hi) as [_ ->]. apply enrich_dict_chunk_id. }
  split; [exact Hret|]. split; [exact Hid|]. split.
  - intros i j ci cj Hi Hj Heq.
    rewrite (Hid _ _ Hi), (Hid _ _ Hj) in Heq.
    injection Heq as Heq. lia.
  - intros i j ci cj Hi Hj Hlt.
    exists (Z.of_nat i), (Z.of_nat j).
    rewrite (Hid _ _ Hi), (Hid _ _ Hj). repeat split; lia.
Qed.

Lemma chunk_ids_sequential_witness :
  NoDup (metadata_ref <$> (sample.one_chunk_each 300 50 sample.two_pages).1) /\
  Forall (fun c => ingestion.source_is_path
                     (snapshot (sample.one_chunk_each 300 50 sample.two_pages).2
                        c) = true)
    (sample.one_chunk_each 300 50 sample.two_pages).1 /\
  ingestion.chunks_returned
    (ingestion.chunk_documents sample.one_chunk_each config.defaults
       sample.two_pages)
  = Ok [ {| chunk_content := "first page"; metadata_ref := 1 |};
         {| chunk_content := "second page"; metadata_ref := 2 |} ] /\
  ingestion.chunk_id_of
    (snapshot
       (ingestion.dicts_after
          (ingestion.chunk_documents sample.one_chunk_each config.defaults
             sample.two_pages))
       {| chunk_content := "second page"; metadata_ref := 2 |})
  = Some (VInt 1).
Proof.
  assert (Hnd : NoDup (metadata_ref <$>
                  (sample.one_chunk_each 300 50 sample.two_pages).1)).
  { apply (bool_decide_unpack _). vm_compute. exact I. }
  assert (Hall : Forall (fun c => ingestion.source_is_path
                           (snapshot
                              (sample.one_chunk_each 300 50 sample.two_pages).2
                              c) = true)
                   (sample.one_chunk_each 300 50 sample.two_pages).1).
  { repeat constructor. }
  split; [exact Hnd|]. split; [exact Hall|].
  destruct (chunk_ids_sequential sample.one_chunk_each config.defaults
              sample.two_pages _ _ eq_refl Hnd Hall) as (Hret & Hid & _).
  split; [exact Hret|].
  exact (Hid 1 {| chunk_content := "second page"; metadata_ref := 2 |}
           eq_refl).
Defined.

(** Two chunks that share one dictionary end up with one identifier,
    the last one written: the distinctness of the dictionaries is what
    the uniqueness of [chunk_id] rests on. *)
Example shared_dictionary_shares_chunk_id :
  ingestion.chunk_id_of
    (snapshot
       (ingestion.dicts_after
          (ingestion.chunk_documents sample.shared_dict config.defaults []))
       {| chunk_content := "first half"; metadata_ref := 1 |})
  = Some (VInt 1).
Proof. vm_compute. reflexivity. Qed.

(** C8, as stated, fails: a chunk that carries a remote-file identifier
    and no [source] comes out of [chunk_documents] with neither a
    [resource_url] nor a [filename]; the synthesized link is stored
    under [drive_url]. *)
Lemma remote_chunk_lacks_filename_and_resource_url :
  ingestion.chunks_returned
    (ingestion.chunk_documents sample.one_chunk_each config.defaults
       [sample.remote_page])
  = Ok [ {| chunk_content := "scanned text"; metadata_ref := 1 |} ] /\
  snapshot
    (ingestion.dicts_after
       (ingestion.chunk_documents sample.one_chunk_each config.defaults
          [sample.remote_page]))
    {| chunk_content := "scanned text"; metadata_ref := 1 |}
  = {| page_content := "scanned text";
       metadata :=
         <["drive_url" := VStr "https://docs.google.com/document/d/1AbC/"]>
           (<["chunk_id" := VInt 0]> {[ "file_id" := VStr "1AbC" ]}) |} /\
  (<["drive_url" := VStr "https://docs.google.com/document/d/1AbC/"]>
     (<["chunk_id" := VInt 0]> {[ "file_id" := VStr "1AbC" ]})
   : gmap string value) !! "resource_url" = None /\
  (<["drive_url" := VStr "https://docs.google.com/document/d/1AbC/"]>
     (<["chunk_id" := VInt 0]> {[ "file_id" := VStr "1AbC" ]})
   : gmap string value) !! "filename" = None.
Proof. vm_compute. auto. Qed.

(** C8, amended.  When the splitter hands over chunks that hold distinct
    metadata dictionaries, and a [source] they carry is a path,
    [chunk_documents] returns those chunks with their text unchanged; a
    chunk whose metadata carries [source] gets [filename] equal to the
    basename of that path; a chunk whose metadata carries [file_id] gets
    [drive_url], the fixed prefix followed by the identifier and a
    slash, computed from the metadata alone; a chunk without [source]
    keeps whatever [filename] it had, and a chunk without [file_id]
    whatever [drive_url] it had. *)
Theorem metadata_normalization
    (splitter : Z -> Z -> list Document ->
                list Chunk * gmap positive (gmap string value))
    (settings : config.Settings) (docs : list Document)
    (chunks : list Chunk) (h : gmap positive (gmap string value)) :
  ingestion.text_splitter splitter settings docs = (chunks, h) ->
  NoDup (metadata_ref <$> chunks) ->
  Forall (fun c => ingestion.source_is_path (snapshot h c) = true) chunks ->
  ingestion.chunks_returned (ingestion.chunk_documents splitter settings docs)
    = Ok chunks /\
  forall i c before after,
    chunks !! i = Some c ->
    before = snapshot h c ->
    after = snapshot
              (ingestion.dicts_after
                 (ingestion.chunk_documents splitter settings docs)) c ->
    page_content after = page_content before /\
    (forall p, metadata before !! "source" = Some (VStr p) ->
       metadata after !! "filename" = Some (VStr (basename p))) /\
    (metadata before !! "source" = None ->
       metadata after !! "filename" = metadata before !! "filename") /\
    (forall file_id, metadata before !! "file_id" = Some file_id ->
       metadata after !! "drive_url"
         = Some (VStr ("https://docs.google.com/document/d/"
                         +:+ format_value file_id +:+ "/"))) /\
    (metadata before !! "file_id" = None ->
       metadata after !! "drive_url" = metadata before !! "drive_url").
Proof.
  intros Hsplit Hnd Hall.
  destruct (chunk_documents_run splitter settings docs chunks h
              Hsplit Hnd Hall) as [Hret Hdicts].
  split; [exact Hret|].
  intros i c before after Hi -> ->. unfold snapshot; simpl.
  destruct (Hdicts i c Hi) as [Hok ->].
  pose proof (enrich_dict_filename i (dict_at h (metadata_ref c))) as Hf.
  pose proof (enrich_dict_drive_url i (dict_at h (metadata_ref c)) Hok) as Hd.
  split; [reflexivity|]. repeat split.
  - intros p Hp. rewrite Hp in Hf. exact Hf.
  - intros Hn. rewrite Hn in Hf. exact Hf.
  - intros fid Hfid. rewrite Hfid in Hd. exact Hd.
  - intros Hn. rewrite Hn in Hd. exact Hd.
Qed.

Lemma metadata_normalization_witness :
  NoDup (metadata_ref <$> (sample.one_chunk_each 300 50 sample.two_pages).1) /\
  Forall (fun c => ingestion.source_is_path
                     (snapshot (sample.one_chunk_each 300 50 sample.two_pages).2
                        c) = true)
    (sample.one_chunk_each 300 50 sample.two_pages).1 /\
  metadata
    (snapshot
       (ingestion.dicts_after
          (ingestion.chunk_documents sample.one_chunk_each config.defaults
             sample.two_pages))
       {| chunk_content := "first page"; metadata_ref := 1 |})
    !! "filename" = Some (VStr "report.pdf").
Proof.
  assert (Hnd : NoDup (metadata_ref <$>
                  (sample.one_chunk_each 300 50 sample.two_pages).1)).
  { apply (bool_decide_unpack _). vm_compute. exact I. }
  assert (Hall : Forall (fun c => ingestion.source_is_path
                           (snapshot
                              (sample.one_chunk_each 300 50 sample.two_pages).2
                              c) = true)
                   (sample.one_chunk_each 300 50 sample.two_pages).1).
  { repeat constructor. }
  split; [exact Hnd|]. split; [exact Hall|].
  destruct (metadata_normalization sample.one_chunk_each config.defaults
              sample.two_pages _ _ eq_refl Hnd Hall) as (_ & Hmd).
  destruct (Hmd 0 {| chunk_content := "first page"; metadata_ref := 1 |}
              _ _ eq_refl eq_refl eq_refl) as (_ & Hfile & _).
  exact (Hfile "/srv/app/data/report.pdf" eq_refl).
Defined.

(** ** Index preparation *)

(** Whatever the cluster holds, a second call finds the index and leaves
    the cluster as the first call left it. *)
Lemma create_index_twice
    (client : gmap string (list (string * ingestion.field_mapping)))
    (index_name : string) :
  let once := ingestion.create_index_if_not_exists client index_name in
  let twice :=
    ingestion.create_index_if_not_exists
      (ingestion.cluster_after once) index_name in
  ingestion.outcome once = Ok () /\
  ingestion.outcome twice = Ok () /\
  ingestion.cluster_after twice = ingestion.cluster_after once /\
  ingestion.issued twice = [ingestion.IndicesExists index_name].
Proof.
  unfold ingestion.create_index_if_not_exists, ingestion.indices_create.
  destruct (ingestion.indices_exists client index_name) eqn:Hex; simpl.
  - rewrite Hex. simpl. auto.
  - assert (Hnow : ingestion.indices_exists
                     (<[index_name := ingestion.mappings]> client) index_name
                   = true).
    { unfold ingestion.indices_exists. apply bool_decide_eq_true.
      rewrite lookup_insert_eq. eauto. }
    rewrite Hnow. simpl. auto.
Qed.

(** C7.  When the index already exists, [create_index_if_not_exists]
    returns without error, issues the existence check and nothing else
    (no create, no delete), and leaves every index of the cluster, the
    mapping of this one included, as it was; a second call does exactly
    what the first did. *)
Theorem create_index_idempotent
    (client : gmap string (list (string * ingestion.field_mapping)))
    (index_name : string) :
  is_Some (client !! index_name) ->
  ingestion.outcome (ingestion.create_index_if_not_exists client index_name)
    = Ok () /\
  ingestion.issued (ingestion.create_index_if_not_exists client index_name)
    = [ingestion.IndicesExists index_name] /\
  ingestion.cluster_after
    (ingestion.create_index_if_not_exists client index_name) = client /\
  ingestion.create_index_if_not_exists
    (ingestion.cluster_after
       (ingestion.create_index_if_not_exists client index_name))
    index_name
  = ingestion.create_index_if_not_exists client index_name.
Proof.
  intros Hex.
  assert (Hb : ingestion.indices_exists client index_name = true).
  { unfold ingestion.indices_exists. apply bool_decide_eq_true. exact Hex. }
  unfold ingestion.create_index_if_not_exists. rewrite Hb. simpl.
  rewrite Hb. auto.
Qed.

Lemma create_index_idempotent_witness :
  is_Some (sample.populated_cluster !! "rag-internship-demo") /\
  ingestion.outcome
    (ingestion.create_index_if_not_exists sample.populated_cluster
       "rag-internship-demo") = Ok () /\
  ingestion.issued
    (ingestion.create_index_if_not_exists sample.populated_cluster
       "rag-internship-demo")
    = [ingestion.IndicesExists "rag-internship-demo"] /\
  ingestion.cluster_after
    (ingestion.create_index_if_not_exists sample.populated_cluster
       "rag-internship-demo") = sample.populated_cluster /\
  ingestion.create_index_if_not_exists
    (ingestion.cluster_after
       (ingestion.create_index_if_not_exists sample.populated_cluster
          "rag-internship-demo"))
    "rag-internship-demo"
  = ingestion.create_index_if_not_exists sample.populated_cluster
      "rag-internship-demo".
Proof.
  assert (H : is_Some (sample.populated_cluster !! "rag-internship-demo")).
  { vm_compute. eauto. }
  split; [exact H|].
  exact (create_index_idempotent sample.populated_cluster
           "rag-internship-demo" H).
Defined.

(** ** Loading *)

Section load_facts.
Import ingestion.
Variable root : string.
Variable settings : config.Settings.
Variable env : sources.

Lemma load_pdf_files_eq (pdf_files : list string) :
  forall log loaded_docs,
    load_pdf_files root env pdf_files log loaded_docs =
      (log ++ map (file_record root env) pdf_files,
       loaded_docs ++
         flat_map
           (fun f =>
              match pdf_load env (os_path_join (LOCAL_DATA_PATH root) f) with
              | Ok docs => docs
              | Raise _ => []
              end) pdf_files).
Proof.
  induction pdf_files as [|f rest IH]; intros log loaded_docs; simpl.
  - rewrite !app_nil_r. reflexivity.
  - unfold file_record at 1.
    destruct (pdf_load env (os_path_join (LOCAL_DATA_PATH root) f))
      as [docs|e]; rewrite IH, <- !app_assoc; reflexivity.
Qed.

Lemma load_docs_from_gdrive_docs :
  (load_docs_from_gdrive root settings env).2
    = gdrive_docs_available settings env.
Proof.
  unfold load_docs_from_gdrive, gdrive_docs_available.
  destruct (credentials_exist env); [|reflexivity].
  destruct (gdrive_load env _); reflexivity.
Qed.

Lemma load_docs_from_local_folder_docs :
  listable env = true ->
  (load_docs_from_local_folder root env).2
    = Ok (local_docs_available root env).
Proof.
  unfold listable, load_docs_from_local_folder, local_docs_available.
  destruct (data_dir env) as [[names|e]|]; try discriminate; intros _.
  - rewrite load_pdf_files_eq. reflexivity.
  - reflexivity.
Qed.
End load_facts.

(** X18.  Provided the data directory is absent or can be listed, the
    loading step of [main] returns, and what it returns is the documents
    of every [.pdf] entry that loads followed by the documents of the
    remote folder when that source answers.  Hence: the documents of
    each file that loads are all returned whatever happens to the other
    files and to the remote source; the documents of the remote folder
    are all returned whatever happens to the local files; and each
    failure leaves its record in the log (an error for a file that fails
    and for a remote load that fails, a warning for a missing directory
    and for missing credentials). *)
Theorem loading_skips_failures
    (root : string) (settings : config.Settings) (env : ingestion.sources) :
  ingestion.listable env = true ->
  exists log all_docs,
    ingestion.main_load_documents root settings env = (log, Ok all_docs) /\
    all_docs = ingestion.local_docs_available root env
               ++ ingestion.gdrive_docs_available settings env /\
    (forall names f docs,
       ingestion.data_dir env = Some (Ok names) ->
       In f names -> endswith f ".pdf" = true ->
       ingestion.pdf_load env
         (ingestion.os_path_join (ingestion.LOCAL_DATA_PATH root) f) = Ok docs ->
       forall d, In d docs -> In d all_docs) /\
    (forall docs,
       ingestion.credentials_exist env = true ->
       ingestion.gdrive_load env (config.google_drive_folder_id settings)
         = Ok docs ->
       forall d, In d docs -> In d all_docs) /\
    (forall names f e,
       ingestion.data_dir env = Some (Ok names) ->
       In f names -> endswith f ".pdf" = true ->
       ingestion.pdf_load env
         (ingestion.os_path_join (ingestion.LOCAL_DATA_PATH root) f) = Raise e ->
       In (ingestion.failed_file_record f e) log) /\
    (forall e,
       ingestion.credentials_exist env = true ->
       ingestion.gdrive_load env (config.google_drive_folder_id settings)
         = Raise e ->
       In (ingestion.failed_gdrive_record e) log) /\
    (ingestion.data_dir env = None ->
       In (ingestion.missing_dir_record root) log) /\
    (ingestion.credentials_exist env = false ->
       In (ingestion.missing_credentials_record root) log).
Proof.
  intros Hl. unfold ingestion.main_load_documents.
  pose proof (load_docs_from_local_folder_docs root env Hl) as Hloc.
  destruct (ingestion.load_docs_from_local_folder root env)
    as [log_local r] eqn:El.
  simpl in Hloc. subst r.
  pose proof (load_docs_from_gdrive_docs root settings env) as Hg.
  destruct (ingestion.load_docs_from_gdrive root settings env)
    as [log_gdrive gd] eqn:Eg.
  simpl in Hg. subst gd.
  eexists _, _. split; [reflexivity|]. split; [reflexivity|].
  repeat split.
  - intros names f docs Hdir Hf Hpdf Hload d Hd.
    apply in_or_app. left.
    unfold ingestion.local_docs_available, ingestion.loadable_docs.
    rewrite Hdir. apply in_flat_map. exists f. split.
    + apply filter_In. auto.
    + rewrite Hload. exact Hd.
  - intros docs Hc Hload d Hd. apply in_or_app. right.
    unfold ingestion.gdrive_docs_available. rewrite Hc, Hload. exact Hd.
  - intros names f e Hdir Hf Hpdf Hload.
    unfold ingestion.load_docs_from_local_folder in El.
    rewrite Hdir, load_pdf_files_eq in El. injection El as <-.
    assert (Hin : In (ingestion.failed_file_record f e)
                    (map (ingestion.file_record root env)
                       (List.filter (fun f => endswith f ".pdf") names))).
    { apply in_map_iff. exists f. split.
      - unfold ingestion.file_record. rewrite Hload. reflexivity.
      - apply filter_In. auto. }
    repeat (rewrite in_app_iff || simpl). tauto.
  - intros e Hc Hload.
    unfold ingestion.load_docs_from_gdrive in Eg.
    rewrite Hc, Hload in Eg. injection Eg as <-.
    repeat (rewrite in_app_iff || simpl). tauto.
  - intros Hdir.
    unfold ingestion.load_docs_from_local_folder in El.
    rewrite Hdir in El. injection El as <-.
    repeat (rewrite in_app_iff || simpl). tauto.
  - intros Hc.
    unfold ingestion.load_docs_from_gdrive in Eg.
    rewrite Hc in Eg. injection Eg as <-.
    repeat (rewrite in_app_iff || simpl). tauto.
Qed.

Lemma loading_skips_failures_witness :
  ingestion.listable sample.three_pdfs = true /\
  exists log all_docs,
    ingestion.main_load_documents "/srv/app" config.defaults sample.three_pdfs
      = (log, Ok all_docs) /\
    all_docs = [ sample.page_of "/srv/app/data/a.pdf";
                 sample.page_of "/srv/app/data/c.pdf" ] /\
    In (ingestion.failed_file_record "broken.pdf"
          (ValueError "EOF marker not found")) log /\
    In (ingestion.missing_credentials_record "/srv/app") log.
Proof.
  assert (H : ingestion.listable sample.three_pdfs = true) by reflexivity.
  split; [exact H|].
  destruct (loading_skips_failures "/srv/app" config.defaults
              sample.three_pdfs H)
    as (log & all_docs & Hrun & Hdocs & _ & _ & Hfile & _ & _ & Hcred).
  exists log, all_docs. split; [exact Hrun|]. split.
  - rewrite Hdocs. vm_compute. reflexivity.
  - split.
    + apply (Hfile ["a.pdf"; "broken.pdf"; "notes.txt"; "c.pdf"]);
        [reflexivity | simpl; auto | reflexivity | reflexivity].
    + apply Hcred. reflexivity.
Defined.

(** C9.  What the code does when the local source fails in a way other
    than a missing directory: if the data path exists but [os.listdir]
    raises (the path is a plain file, or may not be read), the exception
    leaves [load_docs_from_local_folder], which has no handler around the
    listing, and the loading step of [main]: nothing is returned, and
    the remote source, which [main] would load next, is never loaded,
    whatever it holds. *)
Theorem unlistable_directory_aborts_loading
    (root : string) (settings : config.Settings) (env : ingestion.sources)
    (e : Exception) :
  ingestion.data_dir env = Some (Raise e) ->
  ingestion.main_load_documents root settings env
  = ([ (INFO, "Starting ingestion process...");
       (INFO, "Loading documents from local directory: "
                +:+ ingestion.LOCAL_DATA_PATH root) ],
     Raise e).
Proof.
  intros Hdir.
  unfold ingestion.main_load_documents, ingestion.load_docs_from_local_folder.
  rewrite Hdir. reflexivity.
Qed.

Lemma unlistable_directory_aborts_loading_witness :
  ingestion.data_dir sample.data_path_is_a_file
    = Some (Raise (OSError "Not a directory")) /\
  ingestion.gdrive_docs_available config.defaults sample.data_path_is_a_file
    = [sample.remote_page] /\
  (ingestion.main_load_documents "/srv/app" config.defaults
     sample.data_path_is_a_file).2
  = Raise (OSError "Not a directory").
Proof.
  assert (H : ingestion.data_dir sample.data_path_is_a_file
              = Some (Raise (OSError "Not a directory"))) by reflexivity.
  split; [exact H|]. split; [reflexivity|].
  rewrite (unlistable_directory_aborts_loading "/srv/app" config.defaults
             sample.data_path_is_a_file (OSError "Not a directory") H).
  reflexivity.
Defined.

(** ** Retrieval *)

Section retrieval_facts.
Import retriever.
Context {vector : Type}.

Lemma documents_of_hits_missing (hits : list hit) :
  Exists (fun h => text_content h = None \/ hit_metadata h = None) hits ->
  exists e, documents_of_hits hits = Raise e.
Proof.
  induction hits as [|h rest IH]; intros Hex.
  - inversion Hex.
  - simpl. unfold document_of_hit.
    destruct (text_content h) as [text|] eqn:Ht; [|simpl; eauto].
    destruct (hit_metadata h) as [md|] eqn:Hm; [|simpl; eauto].
    simpl. inversion Hex as [? ? [Hbad|Hbad]|? ? Hrest]; subst;
      try congruence.
    destruct (IH Hrest) as [e ->]. simpl. eauto.
Qed.

(** The [try] block makes the search call of the branch taken, unless
    embedding the query raised, and shapes what the client answers. *)
Lemma search_and_shape_eq (self : HybridRetriever vector) (query : string)
    (calls : list (search_call vector)) :
  search_and_shape self query calls =
    match search_call_of self query with
    | Ok call => (client self call ≫= documents_of_hits, calls ++ [call])
    | Raise e => (Raise e, calls)
    end.
Proof.
  unfold search_and_shape, search_call_of, client_search.
  destruct (bool_decide (mode self = "elser_only")); [reflexivity|].
  destruct (embedding_model self query); reflexivity.
Qed.

(** Retrieval always returns a list; an exception never leaves it. *)
Lemma retrieval_returns (self : HybridRetriever vector) (query : string) :
  exists docs, returned (_get_relevant_documents self query) = Ok docs.
Proof.
  unfold _get_relevant_documents.
  destruct (search_and_shape self query []) as [[docs|e] calls];
    simpl; eauto.
Qed.

(** The calls issued are the one search call of the branch taken, or
    none when that call was never made. *)
Lemma retrieval_issued (self : HybridRetriever vector) (query : string) :
  issued (_get_relevant_documents self query) =
    match search_call_of self query with
    | Ok call => [call]
    | Raise _ => []
    end.
Proof.
  unfold _get_relevant_documents. rewrite search_and_shape_eq.
  destruct (search_call_of self query) as [call|e]; [|reflexivity].
  destruct (client self call ≫= documents_of_hits); reflexivity.
Qed.

Lemma search_call_hybrid (self : HybridRetriever vector) (query : string) :
  mode self <> "elser_only" ->
  search_call_of self query =
    (query_vector ← embedding_model self query;
     mret (hybrid_call self query query_vector)).
Proof.
  intros Hm. unfold search_call_of. rewrite bool_decide_eq_false_2 by exact Hm.
  reflexivity.
Qed.

(** When embedding the query raises in the hybrid branch, nothing is
    asked of the backend and the empty list is returned. *)
Lemma embedding_failure_run (self : HybridRetriever vector) (query : string) :
  embedding_failure self query ->
  issued (_get_relevant_documents self query) = [] /\
  returned (_get_relevant_documents self query) = Ok [].
Proof.
  intros [Hm [e He]]. unfold _get_relevant_documents.
  rewrite search_and_shape_eq, (search_call_hybrid self query Hm), He.
  simpl. auto.
Qed.
End retrieval_facts.

(** C2.  Whatever the query and the mode, when the storage backend fails
    the query (the search call raises, or a hit lacks a field the
    retriever reads), [_get_relevant_documents] returns the empty list;
    it returns, it does not raise. *)
Theorem retrieval_failure_gives_empty
    (vector : Type) (self : retriever.HybridRetriever vector)
    (query : string) :
  retriever.backend_failure self query ->
  retriever.returned (retriever._get_relevant_documents self query) = Ok [].
Proof.
  unfold retriever.backend_failure, retriever._get_relevant_documents.
  rewrite search_and_shape_eq.
  destruct (retriever.search_call_of self query) as [call|e];
    [|contradiction].
  destruct (retriever.client self call) as [hits|e]; simpl.
  - intros Hbad.
    destruct (documents_of_hits_missing hits Hbad) as [e ->]. reflexivity.
  - intros _. reflexivity.
Qed.

Lemma retrieval_failure_gives_empty_witness :
  retriever.backend_failure (sample.offline "hybrid") "What is X?" /\
  retriever.returned
    (retriever._get_relevant_documents (sample.offline "hybrid") "What is X?")
    = Ok [].
Proof.
  assert (H : retriever.backend_failure (sample.offline "hybrid")
                "What is X?").
  { exact I. }
  split; [exact H|].
  exact (retrieval_failure_gives_empty (list Z) (sample.offline "hybrid")
           "What is X?" H).
Defined.

(** C3, as stated, fails: in hybrid mode, when embedding the query
    raises, the engine issues no search call at all and returns the
    empty list. *)
Lemma hybrid_without_embedding_issues_no_search :
  retriever.mode (sample.embedding_down "hybrid") = "hybrid" /\
  retriever.issued
    (retriever._get_relevant_documents (sample.embedding_down "hybrid")
       "What is X?") = [] /\
  retriever.returned
    (retriever._get_relevant_documents (sample.embedding_down "hybrid")
       "What is X?") = Ok [].
Proof. vm_compute. auto. Qed.

(** C3, amended.  In hybrid mode, for every query whose embedding is
    computed, the retriever makes exactly one search call, made of three
    ranking components: a k-nearest-neighbour clause on [vector_field]
    with the query's embedding, the requested [k] and a candidate pool
    of 50 whatever [k] is; a lexical match on [text_content]; and a
    text-expansion clause on [elser_embedding_field]; fused by
    reciprocal rank fusion with [rank_constant = 20] and
    [window_size = 100], and cut to [size = k].  When embedding the
    query raises, no search call is made and the empty list is
    returned. *)
Theorem hybrid_search_call
    (vector : Type) (self : retriever.HybridRetriever vector)
    (query : string) :
  retriever.mode self = "hybrid" ->
  match retriever.embedding_model self query with
  | Ok query_vector =>
      retriever.issued (retriever._get_relevant_documents self query) =
        [ {| retriever.index := retriever.index_name self;
             retriever.query := None;
             retriever.knn :=
               Some {| retriever.field := "vector_field";
                       retriever.query_vector := query_vector;
                       retriever.knn_k := retriever.k self;
                       retriever.num_candidates := 50 |};
             retriever.sub_searches :=
               Some [ retriever.Match "text_content" query;
                      retriever.TextExpansion "elser_embedding_field" "elser"
                        query ];
             retriever.rank := Some (retriever.Rrf 20 100);
             retriever.size := retriever.k self |} ]
  | Raise _ =>
      retriever.issued (retriever._get_relevant_documents self query) = [] /\
      retriever.returned (retriever._get_relevant_documents self query)
        = Ok []
  end.
Proof.
  intros Hm.
  assert (Hne : retriever.mode self <> "elser_only")
    by (rewrite Hm; discriminate).
  destruct (retriever.embedding_model self query) as [v|e] eqn:He.
  - rewrite retrieval_issued, (search_call_hybrid self query Hne), He.
    reflexivity.
  - apply embedding_failure_run. split; [exact Hne|eauto].
Qed.

Lemma hybrid_search_call_witness :
  retriever.mode (sample.offline "hybrid") = "hybrid" /\
  retriever.issued
    (retriever._get_relevant_documents (sample.offline "hybrid") "What is X?")
  = [ {| retriever.index := "rag-internship-demo";
         retriever.query := None;
         retriever.knn :=
           Some {| retriever.field := "vector_field";
                   retriever.query_vector := [0; 1; 0]%Z;
                   retriever.knn_k := 5;
                   retriever.num_candidates := 50 |};
         retriever.sub_searches :=
           Some [ retriever.Match "text_content" "What is X?";
                  retriever.TextExpansion "elser_embedding_field" "elser"
                    "What is X?" ];
         retriever.rank := Some (retriever.Rrf 20 100);
         retriever.size := 5 |} ].
Proof.
  assert (H : retriever.mode (sample.offline "hybrid") = "hybrid")
    by reflexivity.
  split; [exact H|].
  exact (hybrid_search_call (list Z) (sample.offline "hybrid")
           "What is X?" H).
Defined.

(** C4.  In mode [elser_only] the retriever makes exactly one search
    call: a text-expansion query on [elser_embedding_field] asking for
    the top [k] documents, with no k-nearest-neighbour clause, no
    sub-searches (hence no lexical match) and no rank fusion. *)
Theorem elser_only_search_call
    (vector : Type) (self : retriever.HybridRetriever vector)
    (query : string) :
  retriever.mode self = "elser_only" ->
  retriever.issued (retriever._get_relevant_documents self query) =
    [ {| retriever.index := retriever.index_name self;
         retriever.query :=
           Some (retriever.TextExpansion "elser_embedding_field" "elser"
                   query);
         retriever.knn := None;
         retriever.sub_searches := None;
         retriever.rank := None;
         retriever.size := retriever.k self |} ].
Proof.
  intros Hm. rewrite retrieval_issued. unfold retriever.search_call_of.
  rewrite bool_decide_eq_true_2 by exact Hm. reflexivity.
Qed.

Lemma elser_only_search_call_witness :
  retriever.mode (sample.offline "elser_only") = "elser_only" /\
  retriever.issued
    (retriever._get_relevant_documents (sample.offline "elser_only")
       "What is X?")
  = [ {| retriever.index := "rag-internship-demo";
         retriever.query :=
           Some (retriever.TextExpansion "elser_embedding_field" "elser"
                   "What is X?");
         retriever.knn := None;
         retriever.sub_searches := None;
         retriever.rank := None;
         retriever.size := 5 |} ].
Proof.
  assert (H : retriever.mode (sample.offline "elser_only") = "elser_only")
    by reflexivity.
  split; [exact H|].
  exact (elser_only_search_call (list Z) (sample.offline "elser_only")
           "What is X?" H).
Defined.




(** ** The mapping against the queries *)

(** C1.  What the code does: the index created on a cluster that lacks
    it has the fields [text], [vector], [text_expansion] and
    [metadata.{filename, drive_url, chunk_id, page}], whereas every
    field named by a search call of the retriever, in either mode and
    for every query vector ([elser_embedding_field], [vector_field],
    [text_content]), is absent from that mapping, as are the
    [text_content] key read from each hit and [metadata.resource_url]. *)
Theorem queried_fields_absent_from_mapping
    (vector : Type) (self : retriever.HybridRetriever vector)
    (query : string) (query_vector : vector) :
  ingestion.cluster_after
    (ingestion.create_index_if_not_exists ∅ (retriever.index_name self))
    !! retriever.index_name self = Some ingestion.mappings /\
  retriever.fields_queried (retriever.elser_only_call self query) <> [] /\
  Forall (fun path => ingestion.lookup_field path ingestion.mappings = None)
    (retriever.fields_queried (retriever.elser_only_call self query)) /\
  retriever.fields_queried (retriever.hybrid_call self query query_vector)
    <> [] /\
  Forall (fun path => ingestion.lookup_field path ingestion.mappings = None)
    (retriever.fields_queried
       (retriever.hybrid_call self query query_vector)) /\
  (forall call, retriever.search_call_of self query = Ok call ->
     retriever.fields_queried call <> [] /\
     Forall (fun path => ingestion.lookup_field path ingestion.mappings = None)
       (retriever.fields_queried call)) /\
  ingestion.lookup_field ["text_content"] ingestion.mappings = None /\
  ingestion.lookup_field ["metadata"; "resource_url"] ingestion.mappings
    = None /\
  ingestion.lookup_field ["text"] ingestion.mappings = Some ingestion.Text /\
  ingestion.lookup_field ["vector"] ingestion.mappings
    = Some (ingestion.DenseVector 384 true "cosine") /\
  ingestion.lookup_field ["text_expansion"] ingestion.mappings
    = Some ingestion.RankFeatures /\
  ingestion.lookup_field ["metadata"; "filename"] ingestion.mappings
    = Some ingestion.Keyword /\
  ingestion.lookup_field ["metadata"; "drive_url"] ingestion.mappings
    = Some ingestion.Keyword /\
  ingestion.lookup_field ["metadata"; "chunk_id"] ingestion.mappings
    = Some ingestion.Integer /\
  ingestion.lookup_field ["metadata"; "page"] ingestion.mappings
    = Some ingestion.Integer.
Proof.
  split.
  { unfold ingestion.create_index_if_not_exists, ingestion.indices_create,
      ingestion.indices_exists.
    rewrite lookup_empty.
    rewrite bool_decide_eq_false_2 by (intros [? ?]; discriminate).
    simpl. apply lookup_insert_eq. }
  split; [discriminate|]. split; [repeat constructor|].
  split; [discriminate|]. split; [repeat constructor|].
  split.
  { intros call. unfold retriever.search_call_of.
    destruct (bool_decide (retriever.mode self = "elser_only")).
    - intros [= <-]. split; [discriminate|repeat constructor].
    - destruct (retriever.embedding_model self query) as [v|e]; simpl;
        [|discriminate].
      intros [= <-]. split; [discriminate|repeat constructor]. }
  repeat split; reflexivity.
Qed.

(** * Further properties of the code *)

(** ** Chunk enrichment, continued *)

Lemma enrich_dict_other (i : nat) (d : gmap string value) (key : string) :
  key <> "chunk_id" -> key <> "filename" -> key <> "drive_url" ->
  (ingestion.enrich_dict i d).2 !! key = d !! key.
Proof.
  intros H1 H2 H3. unfold ingestion.enrich_dict.
  destruct (_ !! "source") as [[p|n]|]; simpl;
    try destruct (_ !! "file_id"); simpl;
    rewrite !lookup_insert_ne by done; reflexivity.
Qed.

(** A chunk whose [source] is not a path stops the loop with the
    [TypeError] of [os.path.basename]. *)
Lemma enrich_from_raises (chunks : list Chunk) :
  forall i (h : gmap positive (gmap string value)),
    NoDup (metadata_ref <$> chunks) ->
    Exists (fun c => ingestion.source_is_path (snapshot h c) = false) chunks ->
    exists h',
      ingestion.enrich_from i chunks h =
        (Raise (TypeError "expected str, bytes or os.PathLike object, not int"),
         h').
Proof.
  induction chunks as [|c rest IH]; intros i h Hnd Hex.
  - inversion Hex.
  - rewrite fmap_cons in Hnd. apply NoDup_cons in Hnd as [Hfresh Hnd].
    simpl. unfold mbind, run_bind. rewrite enrich_chunk_run.
    destruct (ingestion.source_is_path (snapshot h c)) eqn:Hc.
    + rewrite (enrich_dict_ok i (dict_at h (metadata_ref c)) Hc).
      apply IH; [exact Hnd|].
      apply Exists_cons in Hex as [Hbad|Hex]; [congruence|].
      apply Exists_exists in Hex as (c' & Hin & Hbad).
      apply Exists_exists. exists c'. split; [exact Hin|].
      unfold snapshot in *. rewrite dict_at_insert_ne; [exact Hbad|].
      intros Heq. apply Hfresh. rewrite Heq. apply list_elem_of_fmap. eauto.
    + unfold ingestion.source_is_path, snapshot in Hc. simpl in Hc.
      unfold ingestion.enrich_dict.
      rewrite (lookup_insert_ne _ "chunk_id" "source") by done.
      destruct (dict_at h (metadata_ref c) !! "source") as [[p|n]|];
        try discriminate.
      simpl. eauto.
Qed.

Section basename_facts.

Lemma substring_all (s : string) :
  String.substring 0 (String.length s) s = s.
Proof. induction s as [|c s IH]; simpl; [reflexivity|]. rewrite IH. reflexivity. Qed.

Lemma rfind_none_get (s : string) :
  rfind_sep_succ s = 0 -> forall n, String.get n s <> Some "/"%char.
Proof.
  induction s as [|c s IH]; simpl; intros Hz n.
  - destruct n; discriminate.
  - destruct (rfind_sep_succ s) eqn:Hr; [|discriminate].
    destruct (bool_decide (c = "/"%char)) eqn:Hc; [discriminate|].
    apply bool_decide_eq_false in Hc.
    destruct n as [|n]; simpl.
    + intros [= Heq]. contradiction.
    + apply IH. reflexivity.
Qed.

Lemma basename_step (c : ascii) (rest : string) :
  basename (String c rest) =
    match rfind_sep_succ rest with
    | 0 => if bool_decide (c = "/"%char) then rest else String c rest
    | S _ => basename rest
    end.
Proof.
  unfold basename. simpl.
  destruct (rfind_sep_succ rest) as [|j] eqn:Hr.
  - destruct (bool_decide (c = "/"%char)); simpl.
    + rewrite Nat.sub_0_r. apply substring_all.
    + rewrite substring_all. reflexivity.
  - simpl. reflexivity.
Qed.

Lemma basename_no_sep (p : string) : rfind_sep_succ (basename p) = 0.
Proof.
  induction p as [|c rest IH]; [reflexivity|].
  rewrite basename_step.
  destruct (rfind_sep_succ rest) eqn:Hr; [|exact IH].
  destruct (bool_decide (c = "/"%char)) eqn:Hc; [exact Hr|].
  simpl. rewrite Hr, Hc. reflexivity.
Qed.

Lemma basename_split (p : string) :
  exists dir,
    p = dir +:+ basename p /\
    (dir = "" \/ String.get (String.length dir - 1) dir = Some "/"%char).
Proof.
  induction p as [|c rest IH].
  - exists "". split; [reflexivity|]. left. reflexivity.
  - rewrite basename_step.
    destruct (rfind_sep_succ rest) eqn:Hr.
    + destruct (bool_decide (c = "/"%char)) eqn:Hc.
      * apply bool_decide_eq_true in Hc. subst c.
        exists "/". split; [reflexivity|]. right. reflexivity.
      * exists "". split; [reflexivity|]. left. reflexivity.
    + destruct IH as (dir & Hp & Hdir).
      exists (String c dir). split.
      * change (String c dir +:+ basename rest)
          with (String c (dir +:+ basename rest)).
        rewrite <- Hp. reflexivity.
      * right. destruct Hdir as [->|Hget].
        -- (* the directory part is not empty when [rest] has a separator *)
           exfalso. pose proof (basename_no_sep rest) as Hn.
           change ("" +:+ basename rest) with (basename rest) in Hp.
           rewrite <- Hp in Hn. rewrite Hr in Hn. discriminate.
        -- simpl. rewrite Nat.sub_0_r.
           destruct dir as [|d dir']; [discriminate|].
           simpl in Hget. rewrite Nat.sub_0_r in Hget. simpl. exact Hget.
Qed.
End basename_facts.

Lemma forallb_false_Exists {A : Type} (f : A -> bool) (l : list A) :
  forallb f l = false -> Exists (fun x => f x = false) l.
Proof.
  induction l as [|x l IH]; simpl; [discriminate|].
  intros H. apply andb_false_iff in H as [Hx|Hl].
  - apply Exists_cons_hd. exact Hx.
  - apply Exists_cons_tl. apply IH. exact Hl.
Qed.

(** X1.  On chunks that hold distinct metadata dictionaries,
    [chunk_documents] returns the chunks exactly when every [source]
    they carry is a path; as soon as one is a number the call ends with
    the [TypeError] of [os.path.basename] and returns nothing. *)
Theorem chunk_documents_returns_or_raises
    (splitter : Z -> Z -> list Document ->
                list Chunk * gmap positive (gmap string value))
    (settings : config.Settings) (docs : list Document)
    (chunks : list Chunk) (h : gmap positive (gmap string value)) :
  ingestion.text_splitter splitter settings docs = (chunks, h) ->
  NoDup (metadata_ref <$> chunks) ->
  ingestion.chunks_returned (ingestion.chunk_documents splitter settings docs)
  = if forallb (fun c => ingestion.source_is_path (snapshot h c)) chunks
    then Ok chunks
    else Raise (TypeError "expected str, bytes or os.PathLike object, not int").
Proof.
  intros Hsplit Hnd.
  destruct (forallb _ chunks) eqn:Hall.
  - apply (chunk_documents_run splitter settings docs chunks h Hsplit Hnd).
    apply Forall_forall. intros c Hc.
    rewrite forallb_forall in Hall. apply Hall.
    apply list_elem_of_In. exact Hc.
  - apply forallb_false_Exists in Hall.
    destruct (enrich_from_raises chunks 0 h Hnd Hall) as [h' Hrun].
    unfold ingestion.chunk_documents. rewrite Hsplit, Hrun. reflexivity.
Qed.

Lemma chunk_documents_returns_or_raises_witness :
  NoDup (metadata_ref <$>
           (sample.one_chunk_each 300 50
              (sample.two_pages ++ [sample.numbered_page])).1) /\
  ingestion.chunks_returned
    (ingestion.chunk_documents sample.one_chunk_each config.defaults
       (sample.two_pages ++ [sample.numbered_page]))
  = Raise (TypeError "expected str, bytes or os.PathLike object, not int").
Proof.
  assert (Hnd : NoDup (metadata_ref <$>
                  (sample.one_chunk_each 300 50
                     (sample.two_pages ++ [sample.numbered_page])).1)).
  { apply (bool_decide_unpack _). vm_compute. exact I. }
  split; [exact Hnd|].
  exact (chunk_documents_returns_or_raises sample.one_chunk_each
           config.defaults (sample.two_pages ++ [sample.numbered_page])
           _ _ eq_refl Hnd).
Defined.

(** X2.  On chunks that hold distinct metadata dictionaries and whose
    [source], when present, is a path, the loop of [chunk_documents]
    writes the keys [chunk_id], [filename] and [drive_url] and nothing
    else: every other key of a chunk's metadata (its [source], [page],
    [file_id], ...) keeps its value, and a dictionary that belongs to no
    chunk is left as it was. *)
Theorem chunk_documents_keeps_other_metadata
    (splitter : Z -> Z -> list Document ->
                list Chunk * gmap positive (gmap string value))
    (settings : config.Settings) (docs : list Document)
    (chunks : list Chunk) (h : gmap positive (gmap string value)) :
  ingestion.text_splitter splitter settings docs = (chunks, h) ->
  NoDup (metadata_ref <$> chunks) ->
  Forall (fun c => ingestion.source_is_path (snapshot h c) = true) chunks ->
  (forall c key, c ∈ chunks ->
     key <> "chunk_id" -> key <> "filename" -> key <> "drive_url" ->
     metadata
       (snapshot
          (ingestion.dicts_after
             (ingestion.chunk_documents splitter settings docs)) c) !! key
     = metadata (snapshot h c) !! key) /\
  (forall l, l ∉ metadata_ref <$> chunks ->
     ingestion.dicts_after (ingestion.chunk_documents splitter settings docs)
       !! l = h !! l).
Proof.
  intros Hsplit Hnd Hall.
  destruct (enrich_from_run chunks 0 h Hnd Hall) as (h' & Hrun & Hdicts & Hframe).
  unfold ingestion.chunk_documents. rewrite Hsplit, Hrun. simpl.
  split; [|exact Hframe].
  intros c key Hc H1 H2 H3.
  apply list_elem_of_lookup in Hc as [i Hi].
  rewrite (Hdicts i c Hi). apply enrich_dict_other; assumption.
Qed.

Lemma chunk_documents_keeps_other_metadata_witness :
  NoDup (metadata_ref <$> (sample.one_chunk_each 300 50 sample.two_pages).1) /\
  Forall (fun c => ingestion.source_is_path
                     (snapshot (sample.one_chunk_each 300 50 sample.two_pages).2
                        c) = true)
    (sample.one_chunk_each 300 50 sample.two_pages).1 /\
  metadata
    (snapshot
       (ingestion.dicts_after
          (ingestion.chunk_documents sample.one_chunk_each config.defaults
             sample.two_pages))
       {| chunk_content := "second page"; metadata_ref := 2 |}) !! "page"
  = Some (VInt 1).
Proof.
  assert (Hnd : NoDup (metadata_ref <$>
                  (sample.one_chunk_each 300 50 sample.two_pages).1)).
  { apply (bool_decide_unpack _). vm_compute. exact I. }
  assert (Hall : Forall (fun c => ingestion.source_is_path
                           (snapshot
                              (sample.one_chunk_each 300 50 sample.two_pages).2
                              c) = true)
                   (sample.one_chunk_each 300 50 sample.two_pages).1).
  { repeat constructor. }
  split; [exact Hnd|]. split; [exact Hall|].
  destruct (chunk_documents_keeps_other_metadata sample.one_chunk_each
              config.defaults sample.two_pages _ _ eq_refl Hnd Hall)
    as [Hkeys _].
  rewrite (Hkeys {| chunk_content := "second page"; metadata_ref := 2 |}
             "page"); [reflexivity | | discriminate | discriminate | discriminate].
  apply list_elem_of_lookup. exists 1. reflexivity.
Defined.

(** X3.  The [filename] that [chunk_documents] derives from a [source]
    path is the last component of that path: the path is a directory
    part followed by the filename, the directory part is empty or ends
    with a slash, and the filename contains no slash. *)
Theorem filename_is_last_component
    (splitter : Z -> Z -> list Document ->
                list Chunk * gmap positive (gmap string value))
    (settings : config.Settings) (docs : list Document)
    (chunks : list Chunk) (h : gmap positive (gmap string value))
    (i : nat) (c : Chunk) (p : string) :
  ingestion.text_splitter splitter settings docs = (chunks, h) ->
  NoDup (metadata_ref <$> chunks) ->
  Forall (fun c => ingestion.source_is_path (snapshot h c) = true) chunks ->
  chunks !! i = Some c ->
  metadata (snapshot h c) !! "source" = Some (VStr p) ->
  exists dir name,
    metadata
      (snapshot
         (ingestion.dicts_after
            (ingestion.chunk_documents splitter settings docs)) c)
      !! "filename" = Some (VStr name) /\
    p = dir +:+ name /\
    (dir = "" \/ String.get (String.length dir - 1) dir = Some "/"%char) /\
    (forall n, String.get n name <> Some "/"%char).
Proof.
  intros Hsplit Hnd Hall Hi Hsrc.
  destruct (chunk_documents_run splitter settings docs chunks h
              Hsplit Hnd Hall) as [_ Hdicts].
  destruct (Hdicts i c Hi) as [_ Hafter].
  destruct (basename_split p) as (dir & Hp & Hdir).
  exists dir, (basename p). split; [|split; [exact Hp|split; [exact Hdir|]]].
  - unfold snapshot; simpl. rewrite Hafter, enrich_dict_filename.
    unfold snapshot in Hsrc; simpl in Hsrc. rewrite Hsrc. reflexivity.
  - apply rfind_none_get, basename_no_sep.
Qed.

Lemma filename_is_last_component_witness :
  exists dir name,
    metadata
      (snapshot
         (ingestion.dicts_after
            (ingestion.chunk_documents sample.one_chunk_each config.defaults
               sample.two_pages))
         {| chunk_content := "first page"; metadata_ref := 1 |})
      !! "filename" = Some (VStr name) /\
    "/srv/app/data/report.pdf" = dir +:+ name /\
    (dir = "" \/ String.get (String.length dir - 1) dir = Some "/"%char) /\
    (forall n, String.get n name <> Some "/"%char).
Proof.
  assert (Hnd : NoDup (metadata_ref <$>
                  (sample.one_chunk_each 300 50 sample.two_pages).1)).
  { apply (bool_decide_unpack _). vm_compute. exact I. }
  assert (Hall : Forall (fun c => ingestion.source_is_path
                           (snapshot
                              (sample.one_chunk_each 300 50 sample.two_pages).2
                              c) = true)
                   (sample.one_chunk_each 300 50 sample.two_pages).1).
  { repeat constructor. }
  exact (filename_is_last_component sample.one_chunk_each config.defaults
           sample.two_pages _ _ 0
           {| chunk_content := "first page"; metadata_ref := 1 |}
           "/srv/app/data/report.pdf" eq_refl Hnd Hall eq_refl eq_refl).
Defined.

(** ** Index preparation, continued *)

(** X4.  Whatever the cluster holds, [create_index_if_not_exists]
    returns without error; afterwards the index exists, with the mapping
    it had before when it was there and with the mapping of the code
    when it was not; no other index is touched; and a create call is
    issued, after the existence check, only when the index was absent. *)
Theorem create_index_ensures
    (client : gmap string (list (string * ingestion.field_mapping)))
    (index_name : string) :
  ingestion.outcome (ingestion.create_index_if_not_exists client index_name)
    = Ok () /\
  ingestion.cluster_after
    (ingestion.create_index_if_not_exists client index_name) !! index_name
    = Some (default ingestion.mappings (client !! index_name)) /\
  (forall other, other <> index_name ->
     ingestion.cluster_after
       (ingestion.create_index_if_not_exists client index_name) !! other
     = client !! other) /\
  ingestion.issued (ingestion.create_index_if_not_exists client index_name)
    = match client !! index_name with
      | Some _ => [ingestion.IndicesExists index_name]
      | None => [ingestion.IndicesExists index_name;
                 ingestion.IndicesCreate index_name ingestion.mappings]
      end.
Proof.
  unfold ingestion.create_index_if_not_exists, ingestion.indices_create,
    ingestion.indices_exists.
  destruct (client !! index_name) as [m|] eqn:Hm.
  - rewrite bool_decide_eq_true_2 by eauto. simpl.
    rewrite Hm. auto.
  - rewrite bool_decide_eq_false_2 by (intros [? ?]; discriminate). simpl.
    rewrite lookup_insert_eq. repeat split.
    intros other Hne. apply lookup_insert_ne. congruence.
Qed.

(** ** Connection *)

(** X5.  The two [get_es_client] functions, the one ingestion uses and
    the one retrieval uses, build their client with the same arguments
    exactly when both a cloud id and an API key are set, or no cloud id
    is set and the URL is not empty.  With a cloud id and no API key,
    ingestion falls back to the URL while retrieval connects to the
    cloud deployment; with neither cloud id nor URL, ingestion raises
    while retrieval builds a client on the empty URL. *)
Theorem get_es_client_agreement (settings : config.Elastic) :
  (ingestion.get_es_client settings).2
    = Ok (retriever.get_es_client settings).2
  <->
  (truthy_opt (config.elastic_cloud_id settings) = true /\
   truthy_opt (config.elastic_api_key settings) = true) \/
  (truthy_opt (config.elastic_cloud_id settings) = false /\
   truthy_str (config.elastic_url settings) = true).
Proof.
  unfold ingestion.get_es_client, retriever.get_es_client.
  destruct (truthy_opt (config.elastic_cloud_id settings)) eqn:Hc;
    destruct (truthy_opt (config.elastic_api_key settings)) eqn:Hk;
    destruct (truthy_str (config.elastic_url settings)) eqn:Hu;
    simpl; split; intros H;
    try (left; split; reflexivity); try (right; split; reflexivity);
    try reflexivity; try discriminate;
    try (destruct H as [[? ?]|[? ?]]; discriminate).
Qed.

(** ** Retrieval, continued *)

Section shaping_facts.
Import retriever.

Lemma documents_of_hits_ok (hits : list hit) :
  Forall (fun h => is_Some (text_content h) /\ is_Some (hit_metadata h)) hits ->
  exists docs,
    documents_of_hits hits = Ok docs /\
    Forall2 (fun h d => text_content h = Some (page_content d) /\
                        hit_metadata h = Some (metadata d)) hits docs.
Proof.
  induction hits as [|h rest IH]; intros Hall.
  - exists []. split; [reflexivity|constructor].
  - inversion Hall as [|? ? [[text Ht] [md Hm]] Hrest]; subst.
    destruct (IH Hrest) as (docs & Hdocs & Hrel).
    exists ({| page_content := text; metadata := md |} :: docs). split.
    + simpl. unfold document_of_hit. rewrite Ht, Hm. simpl.
      rewrite Hdocs. reflexivity.
    + constructor; [split; assumption|exact Hrel].
Qed.

Lemma documents_of_hits_raise (hits : list hit) (e : Exception) :
  documents_of_hits hits = Raise e ->
  Exists (fun h => text_content h = None \/ hit_metadata h = None) hits.
Proof.
  induction hits as [|h rest IH]; simpl; [discriminate|].
  unfold document_of_hit.
  destruct (text_content h) as [text|] eqn:Ht;
    [|intros _; apply Exists_cons_hd; left; exact Ht].
  destruct (hit_metadata h) as [md|] eqn:Hm;
    [|intros _; apply Exists_cons_hd; right; exact Hm].
  simpl. destruct (documents_of_hits rest) as [docs|e'] eqn:Hr; simpl;
    [discriminate|].
  intros [= <-]. apply Exists_cons_tl. apply IH. reflexivity.
Qed.
End shaping_facts.

(** X6.  When the search call is made and returns, and every hit
    carries both [text_content] and [metadata], the retriever returns
    one document per hit, in the order of the hits, with the stored text
    as page content and the stored metadata unchanged; that search call
    is the only one it made, and it logs no error. *)
Theorem retrieval_shapes_hits
    (vector : Type) (self : retriever.HybridRetriever vector)
    (query : string) (call : retriever.search_call vector)
    (hits : list retriever.hit) :
  retriever.search_call_of self query = Ok call ->
  retriever.client self call = Ok hits ->
  Forall (fun h => is_Some (retriever.text_content h) /\
                   is_Some (retriever.hit_metadata h)) hits ->
  exists docs,
    retriever.returned (retriever._get_relevant_documents self query)
      = Ok docs /\
    Forall2 (fun h d => retriever.text_content h = Some (page_content d) /\
                        retriever.hit_metadata h = Some (metadata d))
      hits docs /\
    retriever.issued (retriever._get_relevant_documents self query)
      = [call] /\
    retriever.logged (retriever._get_relevant_documents self query)
      = [(INFO, "Executing retrieval with mode: '" +:+ retriever.mode self
                  +:+ "'")].
Proof.
  intros Hcall Hsearch Hall.
  destruct (documents_of_hits_ok hits Hall) as (docs & Hdocs & Hrel).
  exists docs.
  unfold retriever._get_relevant_documents.
  rewrite search_and_shape_eq, Hcall, Hsearch. simpl.
  rewrite Hdocs. simpl. auto.
Qed.

Lemma retrieval_shapes_hits_witness :
  exists docs,
    retriever.returned
      (retriever._get_relevant_documents (sample.online "hybrid") "What is X?")
      = Ok docs /\
    Forall2 (fun h d => retriever.text_content h = Some (page_content d) /\
                        retriever.hit_metadata h = Some (metadata d))
      sample.two_hits docs /\
    retriever.issued
      (retriever._get_relevant_documents (sample.online "hybrid") "What is X?")
      = [retriever.hybrid_call (sample.online "hybrid") "What is X?"
           [0; 1; 0]%Z] /\
    retriever.logged
      (retriever._get_relevant_documents (sample.online "hybrid") "What is X?")
      = [(INFO, "Executing retrieval with mode: 'hybrid'")].
Proof.
  apply (retrieval_shapes_hits (list Z) (sample.online "hybrid") "What is X?"
           _ sample.two_hits eq_refl eq_refl).
  repeat constructor; simpl; eauto.
Defined.

(** X7.  The retriever writes an error record to the log exactly when
    its [try] block failed: embedding the query raised in the hybrid
    branch, or the backend failed the query (the search call raised, or
    a hit came back without [text_content] or [metadata]).  A swallowed
    failure is always visible in the log, and a successful retrieval
    never logs an error. *)
Theorem retrieval_logs_error_iff_failure
    (vector : Type) (self : retriever.HybridRetriever vector)
    (query : string) :
  (exists msg,
     In (ERROR, msg)
        (retriever.logged (retriever._get_relevant_documents self query)))
  <-> retriever.embedding_failure self query
      \/ retriever.backend_failure self query.
Proof.
  unfold retriever.embedding_failure, retriever.backend_failure,
    retriever._get_relevant_documents.
  rewrite search_and_shape_eq. unfold retriever.search_call_of.
  destruct (bool_decide (retriever.mode self = "elser_only")) eqn:Hmode.
  - apply bool_decide_eq_true in Hmode.
    destruct (retriever.client self (retriever.elser_only_call self query))
      as [hits|e]; simpl.
    + destruct (retriever.documents_of_hits hits) as [docs|e] eqn:Hshape;
        simpl.
      * split.
        -- intros [msg [Hin|[]]]. discriminate.
        -- intros [[Hne _]|Hbad]; [contradiction|].
           destruct (documents_of_hits_missing hits Hbad) as [e He].
           congruence.
      * split.
        -- intros _. right. exact (documents_of_hits_raise hits e Hshape).
        -- intros _. eexists. right. left. reflexivity.
    + split; [intros _; right; exact I|].
      intros _. eexists. right. left. reflexivity.
  - apply bool_decide_eq_false in Hmode.
    destruct (retriever.embedding_model self query) as [v|e] eqn:He; simpl.
    + destruct (retriever.client self (retriever.hybrid_call self query v))
        as [hits|e]; simpl.
      * destruct (retriever.documents_of_hits hits) as [docs|e] eqn:Hshape;
          simpl.
        -- split.
           ++ intros [msg [Hin|[]]]. discriminate.
           ++ intros [[_ [e Hraise]]|Hbad]; [discriminate|].
              destruct (documents_of_hits_missing hits Hbad) as [e He'].
              congruence.
        -- split.
           ++ intros _. right.
              exact (documents_of_hits_raise hits e Hshape).
           ++ intros _. eexists. right. left. reflexivity.
      * split; [intros _; right; exact I|].
        intros _. eexists. right. left. reflexivity.
    + split.
      * intros _. left. split; [exact Hmode|eauto].
      * intros _. eexists. right. left. reflexivity.
Qed.

(** ** The pipeline *)

Lemma main_load_documents_docs
    (root : string) (settings : config.Settings) (env : ingestion.sources) :
  ingestion.listable env = true ->
  (ingestion.main_load_documents root settings env).2
  = Ok (ingestion.local_docs_available root env
        ++ ingestion.gdrive_docs_available settings env).
Proof.
  intros Hl. unfold ingestion.main_load_documents.
  pose proof (load_docs_from_local_folder_docs root env Hl) as Hloc.
  destruct (ingestion.load_docs_from_local_folder root env) as [l1 r].
  simpl in Hloc. subst r.
  pose proof (load_docs_from_gdrive_docs root settings env) as Hg.
  destruct (ingestion.load_docs_from_gdrive root settings env) as [l2 gd].
  simpl in Hg. subst gd. reflexivity.
Qed.

Lemma create_index_returns
    (client : gmap string (list (string * ingestion.field_mapping)))
    (index_name : string) :
  ingestion.outcome (ingestion.create_index_if_not_exists client index_name)
  = Ok ().
Proof.
  unfold ingestion.create_index_if_not_exists.
  destruct (ingestion.indices_exists client index_name) eqn:Hex;
    [reflexivity|].
  unfold ingestion.indices_create. rewrite Hex. reflexivity.
Qed.

(** X8.  When the sources yield no document at all (the data directory
    is absent or lists no loadable PDF, and the remote store is skipped,
    fails or is empty), [main] stops before chunking: it returns
    normally, makes no call to the storage backend, leaves the cluster
    as it was, and ends its log with the warning that no documents were
    found. *)
Theorem main_stops_on_empty_corpus
    (splitter : Z -> Z -> list Document ->
                list Chunk * gmap positive (gmap string value))
    (root : string) (settings : config.Settings) (elastic : config.Elastic)
    (env : ingestion.sources)
    (embeddings : string -> result unit)
    (from_documents :
       list Document -> string ->
       gmap string (list (string * ingestion.field_mapping)) ->
       result unit * gmap string (list (string * ingestion.field_mapping)))
    (client : gmap string (list (string * ingestion.field_mapping))) :
  ingestion.listable env = true ->
  ingestion.local_docs_available root env = [] ->
  ingestion.gdrive_docs_available settings env = [] ->
  ingestion.pipeline_outcome
    (ingestion.main splitter root settings elastic env embeddings
       from_documents client) = Ok () /\
  ingestion.pipeline_calls
    (ingestion.main splitter root settings elastic env embeddings
       from_documents client) = [] /\
  ingestion.pipeline_cluster
    (ingestion.main splitter root settings elastic env embeddings
       from_documents client) = client /\
  last (ingestion.pipeline_log
          (ingestion.main splitter root settings elastic env embeddings
             from_documents client))
  = Some (WARNING, "No documents found. Exiting ingestion.").
Proof.
  intros Hl Hloc Hg.
  pose proof (main_load_documents_docs root settings env Hl) as Hload.
  rewrite Hloc, Hg in Hload. unfold ingestion.main.
  destruct (ingestion.main_load_documents root settings env) as [log r].
  simpl in Hload. subst r. simpl. repeat split. apply last_snoc.
Qed.

Lemma main_stops_on_empty_corpus_witness :
  ingestion.listable sample.nothing_to_load = true /\
  ingestion.pipeline_calls
    (ingestion.main sample.one_chunk_each "/srv/app" config.defaults
       config.elastic_defaults sample.nothing_to_load sample.model_loaded
       sample.bulk_ok ∅) = [].
Proof.
  assert (H : ingestion.listable sample.nothing_to_load = true)
    by reflexivity.
  split; [exact H|].
  exact (proj1 (proj2
    (main_stops_on_empty_corpus sample.one_chunk_each "/srv/app"
       config.defaults config.elastic_defaults sample.nothing_to_load
       sample.model_loaded sample.bulk_ok ∅ H eq_refl eq_refl))).
Defined.

(** X9.  When the embedding model cannot be loaded, or no connection
    settings are found, [main] makes no call to the storage backend and
    leaves the cluster as it was, whatever was loaded: the index is
    neither checked nor created. *)
Theorem main_fatal_before_backend
    (splitter : Z -> Z -> list Document ->
                list Chunk * gmap positive (gmap string value))
    (root : string) (settings : config.Settings) (elastic : config.Elastic)
    (env : ingestion.sources)
    (embeddings : string -> result unit)
    (from_documents :
       list Document -> string ->
       gmap string (list (string * ingestion.field_mapping)) ->
       result unit * gmap string (list (string * ingestion.field_mapping)))
    (client : gmap string (list (string * ingestion.field_mapping))) :
  (exists e, embeddings (config.embedding_model_name settings) = Raise e) \/
  (exists e, (ingestion.get_es_client elastic).2 = Raise e) ->
  ingestion.pipeline_calls
    (ingestion.main splitter root settings elastic env embeddings
       from_documents client) = [] /\
  ingestion.pipeline_cluster
    (ingestion.main splitter root settings elastic env embeddings
       from_documents client) = client.
Proof.
  intros Hfatal. unfold ingestion.main.
  destruct (ingestion.main_load_documents root settings env)
    as [log [[|d all_docs]|e]]; simpl; auto.
  destruct (ingestion.chunks_returned _) as [chunks|e]; simpl; auto.
  destruct (embeddings (config.embedding_model_name settings))
    as [[]|e] eqn:Hemb; simpl; auto.
  destruct (ingestion.get_es_client elastic) as [log_es [args|e]] eqn:Hes;
    simpl; auto.
  destruct Hfatal as [[e He]|[e He]]; discriminate.
Qed.

Lemma main_fatal_before_backend_witness :
  ingestion.pipeline_calls
    (ingestion.main sample.one_chunk_each "/srv/app" config.defaults
       config.elastic_defaults sample.three_pdfs sample.no_model
       sample.bulk_ok sample.populated_cluster) = [] /\
  ingestion.pipeline_cluster
    (ingestion.main sample.one_chunk_each "/srv/app" config.defaults
       config.elastic_defaults sample.three_pdfs sample.no_model
       sample.bulk_ok sample.populated_cluster) = sample.populated_cluster.
Proof.
  apply main_fatal_before_backend. left. eexists. reflexivity.
Defined.

(** X10.  The calls [main] makes to the storage backend have one of
    three shapes: none at all; the index-preparation calls followed by
    one bulk write that failed, in which case [main] raises and no
    refresh is issued; or the index-preparation calls, one bulk write
    that succeeded, and then the refresh.  The bulk write is always
    handed a cluster in which the index exists. *)
Theorem main_call_order
    (splitter : Z -> Z -> list Document ->
                list Chunk * gmap positive (gmap string value))
    (root : string) (settings : config.Settings) (elastic : config.Elastic)
    (env : ingestion.sources)
    (embeddings : string -> result unit)
    (from_documents :
       list Document -> string ->
       gmap string (list (string * ingestion.field_mapping)) ->
       result unit * gmap string (list (string * ingestion.field_mapping)))
    (client : gmap string (list (string * ingestion.field_mapping))) :
  ingestion.pipeline_calls
    (ingestion.main splitter root settings elastic env embeddings
       from_documents client) = [] \/
  exists documents,
    is_Some
      (ingestion.cluster_after
         (ingestion.create_index_if_not_exists client
            (config.index_name settings))
       !! config.index_name settings) /\
    ((exists e,
        (from_documents documents (config.index_name settings)
           (ingestion.cluster_after
              (ingestion.create_index_if_not_exists client
                 (config.index_name settings)))).1 = Raise e /\
        ingestion.pipeline_outcome
          (ingestion.main splitter root settings elastic env embeddings
             from_documents client) = Raise e /\
        ingestion.pipeline_calls
          (ingestion.main splitter root settings elastic env embeddings
             from_documents client)
        = (ingestion.Admin <$>
             ingestion.issued
               (ingestion.create_index_if_not_exists client
                  (config.index_name settings)))
          ++ [ingestion.FromDocuments (config.index_name settings)
                documents]) \/
     ((from_documents documents (config.index_name settings)
         (ingestion.cluster_after
            (ingestion.create_index_if_not_exists client
               (config.index_name settings)))).1 = Ok () /\
      ingestion.pipeline_calls
        (ingestion.main splitter root settings elastic env embeddings
           from_documents client)
      = (ingestion.Admin <$>
           ingestion.issued
             (ingestion.create_index_if_not_exists client
                (config.index_name settings)))
        ++ [ingestion.FromDocuments (config.index_name settings) documents;
            ingestion.Admin
              (ingestion.IndicesRefresh (config.index_name settings))])).
Proof.
  unfold ingestion.main.
  destruct (ingestion.main_load_documents root settings env)
    as [log [[|d all_docs]|e]]; simpl; auto.
  destruct (ingestion.chunks_returned _) as [chunks|e]; simpl; auto.
  destruct (embeddings (config.embedding_model_name settings))
    as [[]|e]; simpl; auto.
  destruct (ingestion.get_es_client elastic) as [log_es [args|e]];
    simpl; auto.
  rewrite create_index_returns.
  right.
  exists (snapshot
            (ingestion.dicts_after
               (ingestion.chunk_documents splitter settings (d :: all_docs)))
            <$> chunks).
  split.
  { unfold ingestion.create_index_if_not_exists.
    destruct (ingestion.indices_exists client (config.index_name settings))
      eqn:Hex.
    - unfold ingestion.indices_exists in Hex.
      apply bool_decide_eq_true in Hex. exact Hex.
    - unfold ingestion.indices_create. rewrite Hex. simpl.
      rewrite lookup_insert_eq. eauto. }
  destruct (from_documents _ _ _) as [[[]|e] cluster] eqn:Hbulk; simpl.
  - right. split; [reflexivity|].
    destruct (ingestion.indices_refresh cluster (config.index_name settings));
      simpl; rewrite <- app_assoc; reflexivity.
  - left. exists e. auto.
Qed.

(** X16.  When the data path exists but cannot be listed, the
    exception of [os.listdir] leaves [load_docs_from_local_folder] and
    ends [main]: the remote store is not consulted (nothing about it is
    logged and none of its documents is used), no call reaches the
    storage backend, and the cluster is left as it was. *)
Theorem listing_failure_aborts_main
    (splitter : Z -> Z -> list Document ->
                list Chunk * gmap positive (gmap string value))
    (root : string) (settings : config.Settings) (elastic : config.Elastic)
    (env : ingestion.sources)
    (embeddings : string -> result unit)
    (from_documents :
       list Document -> string ->
       gmap string (list (string * ingestion.field_mapping)) ->
       result unit * gmap string (list (string * ingestion.field_mapping)))
    (client : gmap string (list (string * ingestion.field_mapping)))
    (e : Exception) :
  ingestion.data_dir env = Some (Raise e) ->
  ingestion.main splitter root settings elastic env embeddings
    from_documents client
  = {| ingestion.pipeline_log :=
         [ (INFO, "Starting ingestion process...");
           (INFO, "Loading documents from local directory: "
                    +:+ ingestion.LOCAL_DATA_PATH root) ];
       ingestion.pipeline_calls := [];
       ingestion.pipeline_cluster := client;
       ingestion.pipeline_outcome := Raise e |}.
Proof.
  intros Hdir.
  unfold ingestion.main, ingestion.main_load_documents,
    ingestion.load_docs_from_local_folder.
  rewrite Hdir. reflexivity.
Qed.

Lemma listing_failure_aborts_main_witness :
  ingestion.pipeline_outcome
    (ingestion.main sample.one_chunk_each "/srv/app" config.defaults
       config.elastic_defaults sample.data_path_is_a_file sample.model_loaded
       sample.bulk_ok ∅)
  = Raise (OSError "Not a directory").
Proof.
  rewrite (listing_failure_aborts_main sample.one_chunk_each "/srv/app"
             config.defaults config.elastic_defaults
             sample.data_path_is_a_file sample.model_loaded sample.bulk_ok ∅
             (OSError "Not a directory") eq_refl).
  reflexivity.
Defined.

Lemma chunk_documents_ok_inv
    (splitter : Z -> Z -> list Document ->
                list Chunk * gmap positive (gmap string value))
    (settings : config.Settings) (docs : list Document)
    (chunks out : list Chunk) (h : gmap positive (gmap string value)) :
  ingestion.text_splitter splitter settings docs = (chunks, h) ->
  NoDup (metadata_ref <$> chunks) ->
  ingestion.chunks_returned (ingestion.chunk_documents splitter settings docs)
    = Ok out ->
  out = chunks /\
  Forall (fun c => ingestion.source_is_path (snapshot h c) = true) chunks.
Proof.
  intros Hsplit Hnd Hout.
  destruct (forallb (fun c => ingestion.source_is_path (snapshot h c)) chunks)
    eqn:Hall.
  - assert (HF : Forall (fun c => ingestion.source_is_path (snapshot h c)
                                  = true) chunks).
    { apply Forall_forall. intros c Hc. rewrite forallb_forall in Hall.
      apply Hall. apply list_elem_of_In. exact Hc. }
    split; [|exact HF].
    destruct (chunk_documents_run splitter settings docs chunks h
                Hsplit Hnd HF) as [Hret _].
    congruence.
  - apply forallb_false_Exists in Hall.
    destruct (enrich_from_raises chunks 0 h Hnd Hall) as [h' Hrun].
    unfold ingestion.chunk_documents in Hout.
    rewrite Hsplit, Hrun in Hout. discriminate.
Qed.

(** X17.  With a splitter whose chunks always hold distinct metadata
    dictionaries, a bulk write that [main] issues is for the configured
    index and carries exactly the chunks the splitter made of the loaded
    documents, one document per chunk, in chunking order, each read
    after the enrichment loop: the document at position [i] is chunk
    [i] and carries [chunk_id = i]. *)
Theorem main_indexes_numbered_chunks
    (splitter : Z -> Z -> list Document ->
                list Chunk * gmap positive (gmap string value))
    (root : string) (settings : config.Settings) (elastic : config.Elastic)
    (env : ingestion.sources)
    (embeddings : string -> result unit)
    (from_documents :
       list Document -> string ->
       gmap string (list (string * ingestion.field_mapping)) ->
       result unit * gmap string (list (string * ingestion.field_mapping)))
    (client : gmap string (list (string * ingestion.field_mapping)))
    (index : string) (documents : list Document) :
  (forall docs,
     NoDup (metadata_ref <$>
              (ingestion.text_splitter splitter settings docs).1)) ->
  In (ingestion.FromDocuments index documents)
     (ingestion.pipeline_calls
        (ingestion.main splitter root settings elastic env embeddings
           from_documents client)) ->
  exists all_docs,
    (ingestion.main_load_documents root settings env).2 = Ok all_docs /\
    index = config.index_name settings /\
    ingestion.chunks_returned
      (ingestion.chunk_documents splitter settings all_docs)
    = Ok (ingestion.text_splitter splitter settings all_docs).1 /\
    documents
    = snapshot
        (ingestion.dicts_after
           (ingestion.chunk_documents splitter settings all_docs))
        <$> (ingestion.text_splitter splitter settings all_docs).1 /\
    length documents
    = length (ingestion.text_splitter splitter settings all_docs).1 /\
    forall i d, documents !! i = Some d ->
      ingestion.chunk_id_of d = Some (VInt (Z.of_nat i)).
Proof.
  intros Hfresh. unfold ingestion.main.
  destruct (ingestion.main_load_documents root settings env)
    as [log [[|d0 all_docs]|e]]; simpl; try tauto.
  destruct (ingestion.chunks_returned
              (ingestion.chunk_documents splitter settings (d0 :: all_docs)))
    as [chunks|e] eqn:Hchunks; simpl; try tauto.
  destruct (embeddings (config.embedding_model_name settings))
    as [[]|e]; simpl; try tauto.
  destruct (ingestion.get_es_client elastic) as [log_es [args|e]];
    simpl; try tauto.
  rewrite create_index_returns.
  set (documents0 :=
         snapshot
           (ingestion.dicts_after
              (ingestion.chunk_documents splitter settings (d0 :: all_docs)))
           <$> chunks).
  assert (Hcalls : forall calls,
            In (ingestion.FromDocuments index documents)
               ((ingestion.Admin <$>
                   ingestion.issued
                     (ingestion.create_index_if_not_exists client
                        (config.index_name settings)))
                ++ ingestion.FromDocuments (config.index_name settings)
                     documents0 :: calls) ->
            (forall c, In c calls -> exists a, c = ingestion.Admin a) ->
            index = config.index_name settings /\ documents = documents0).
  { intros calls Hin Hadmin. apply in_app_or in Hin as [Hin|[Heq|Hin]].
    - apply list_elem_of_In, list_elem_of_fmap in Hin as (a & Ha & _).
      discriminate.
    - injection Heq as <- <-. auto.
    - destruct (Hadmin _ Hin) as [a Ha]. discriminate. }
  assert (Hgoal :
            index = config.index_name settings /\ documents = documents0 ->
            exists all_docs',
              Ok (d0 :: all_docs) = Ok all_docs' /\
              index = config.index_name settings /\
              ingestion.chunks_returned
                (ingestion.chunk_documents splitter settings all_docs')
              = Ok (ingestion.text_splitter splitter settings all_docs').1 /\
              documents
              = snapshot
                  (ingestion.dicts_after
                     (ingestion.chunk_documents splitter settings all_docs'))
                  <$> (ingestion.text_splitter splitter settings all_docs').1 /\
              length documents
              = length (ingestion.text_splitter splitter settings all_docs').1 /\
              forall i d, documents !! i = Some d ->
                ingestion.chunk_id_of d = Some (VInt (Z.of_nat i))).
  { intros [-> ->]. exists (d0 :: all_docs).
    destruct (ingestion.text_splitter splitter settings (d0 :: all_docs))
      as [chunks0 h] eqn:Hsplit.
    pose proof (Hfresh (d0 :: all_docs)) as Hnd. rewrite Hsplit in Hnd.
    simpl in Hnd.
    destruct (chunk_documents_ok_inv splitter settings (d0 :: all_docs)
                chunks0 chunks h Hsplit Hnd Hchunks) as [-> Hall].
    destruct (chunk_documents_run splitter settings (d0 :: all_docs)
                chunks0 h Hsplit Hnd Hall) as [_ Hdicts].
    simpl. unfold documents0.
    split; [reflexivity|]. split; [reflexivity|].
    split; [exact Hchunks|]. split; [reflexivity|]. split.
    - apply length_fmap.
    - intros i d Hi. rewrite list_lookup_fmap in Hi.
      destruct (chunks0 !! i) as [c|] eqn:Hc; [|discriminate].
      injection Hi as <-.
      destruct (Hdicts i c Hc) as [_ Hafter].
      unfold ingestion.chunk_id_of, snapshot; simpl.
      rewrite Hafter. apply enrich_dict_chunk_id. }
  destruct (from_documents documents0 (config.index_name settings) _)
    as [[[]|e] cluster]; simpl.
  - destruct (ingestion.indices_refresh cluster (config.index_name settings));
      simpl; rewrite <- app_assoc; simpl; intros Hin; apply Hgoal;
      apply (Hcalls _ Hin); intros c [<-|[]]; eauto.
  - intros Hin. apply Hgoal. apply (Hcalls [] Hin). intros c [].
Qed.

(** The sample splitter gives every chunk a dictionary of its own. *)
Lemma one_chunk_each_from_fresh (docs : list Document) :
  forall l,
    NoDup (metadata_ref <$> (sample.one_chunk_each_from l docs).1) /\
    forall r, r ∈ metadata_ref <$> (sample.one_chunk_each_from l docs).1 ->
              (l <= r)%positive.
Proof.
  induction docs as [|d rest IH]; intros l; simpl.
  - split; [constructor|]. intros r Hr. inversion Hr.
  - destruct (IH (Pos.succ l)) as [Hnd Hge].
    destruct (sample.one_chunk_each_from (Pos.succ l) rest) as [chunks h].
    simpl in *. split.
    + apply NoDup_cons. split; [|exact Hnd].
      intros Hin. apply Hge in Hin. lia.
    + intros r Hr. apply elem_of_cons in Hr as [->|Hr]; [lia|].
      apply Hge in Hr. lia.
Qed.

Lemma main_indexes_numbered_chunks_witness :
  In (ingestion.FromDocuments "rag-internship-demo"
        (snapshot
           (ingestion.dicts_after
              (ingestion.chunk_documents sample.one_chunk_each config.defaults
                 [ sample.page_of "/srv/app/data/a.pdf";
                   sample.page_of "/srv/app/data/c.pdf" ]))
           <$> (ingestion.text_splitter sample.one_chunk_each config.defaults
                  [ sample.page_of "/srv/app/data/a.pdf";
                    sample.page_of "/srv/app/data/c.pdf" ]).1))
     (ingestion.pipeline_calls
        (ingestion.main sample.one_chunk_each "/srv/app" config.defaults
           config.elastic_defaults sample.three_pdfs sample.model_loaded
           sample.bulk_ok ∅)) /\
  forall i d,
    (snapshot
       (ingestion.dicts_after
          (ingestion.chunk_documents sample.one_chunk_each config.defaults
             [ sample.page_of "/srv/app/data/a.pdf";
               sample.page_of "/srv/app/data/c.pdf" ]))
       <$> (ingestion.text_splitter sample.one_chunk_each config.defaults
              [ sample.page_of "/srv/app/data/a.pdf";
                sample.page_of "/srv/app/data/c.pdf" ]).1) !! i = Some d ->
    ingestion.chunk_id_of d = Some (VInt (Z.of_nat i)).
Proof.
  assert (Hin :
    In (ingestion.FromDocuments "rag-internship-demo"
          (snapshot
             (ingestion.dicts_after
                (ingestion.chunk_documents sample.one_chunk_each
                   config.defaults
                   [ sample.page_of "/srv/app/data/a.pdf";
                     sample.page_of "/srv/app/data/c.pdf" ]))
             <$> (ingestion.text_splitter sample.one_chunk_each
                    config.defaults
                    [ sample.page_of "/srv/app/data/a.pdf";
                      sample.page_of "/srv/app/data/c.pdf" ]).1))
       (ingestion.pipeline_calls
          (ingestion.main sample.one_chunk_each "/srv/app" config.defaults
             config.elastic_defaults sample.three_pdfs sample.model_loaded
             sample.bulk_ok ∅))).
  { right. right. left. vm_compute. reflexivity. }
  split; [exact Hin|].
  destruct (main_indexes_numbered_chunks sample.one_chunk_each "/srv/app"
              config.defaults config.elastic_defaults sample.three_pdfs
              sample.model_loaded sample.bulk_ok ∅ "rag-internship-demo" _
              (fun docs => proj1 (one_chunk_each_from_fresh docs 1)) Hin)
    as (all_docs & _ & _ & _ & _ & _ & Hids).
  exact Hids.
Defined.

(** ** The query endpoint *)

Section query_facts.
Context {vector : Type}.
Variable llm : string -> result string.
Variable Elasticsearch :
  es_client_args ->
  result (retriever.search_call vector -> result (list retriever.hit)).
Variable HuggingFaceEmbeddings :
  string -> result (string -> result vector).
Variable settings : config.Settings.
Variable elastic : config.Elastic.
Variable validation_error : string -> value -> string.

(** The endpoint, once its retriever is built: what it answers is
    decided by the retrieval, the model call and the citations. *)
Lemma query_result_with (request : api.QueryRequest)
    (r : retriever.HybridRetriever vector) :
  (retriever.get_retriever Elasticsearch HuggingFaceEmbeddings settings
     elastic (api.retrieval_mode request) 5).2 = Ok r ->
  api.query_result
    (api.query llm Elasticsearch HuggingFaceEmbeddings settings elastic
       validation_error request)
  = match
      (docs ← retriever.returned
                (retriever._get_relevant_documents r (api.question request));
       answer ← llm (chains.prompt (chains.format_docs docs)
                       (api.question request));
       citations ← api.citations_of validation_error docs;
       mret {| api.answer := answer; api.citations := citations |})
    with
    | Ok response => api.Returned response
    | Raise e =>
        api.HTTPException 500
          ("An internal server error occurred: " +:+ str_exc e)
    end.
Proof.
  intros Hr. unfold api.query, api.query_body.
  destruct (retriever.get_retriever _ _ _ _ _ _) as [log created].
  simpl in Hr. subst created. simpl. unfold chains.invoke.
  destruct (retriever.returned _) as [docs|e]; simpl; [|reflexivity].
  destruct (llm _) as [answer|e]; simpl; [|reflexivity].
  destruct (api.citations_of validation_error docs); reflexivity.
Qed.
End query_facts.

Section query_theorems_support.
Context {vector : Type}.

Lemma failure_raises_in_try (self : retriever.HybridRetriever vector)
    (query : string) :
  retriever.backend_failure self query ->
  exists e calls, retriever.search_and_shape self query [] = (Raise e, calls).
Proof.
  unfold retriever.backend_failure. rewrite search_and_shape_eq.
  destruct (retriever.search_call_of self query) as [call|e];
    [|contradiction].
  destruct (retriever.client self call) as [hits|e]; simpl; [|eauto].
  intros Hbad. destruct (documents_of_hits_missing hits Hbad) as [e ->].
  eauto.
Qed.

Lemma citations_of_ok (validation_error : string -> value -> string)
    (docs : list Document) :
  Forall (fun d => api.citable (metadata d)) docs ->
  exists cs,
    api.citations_of validation_error docs = Ok cs /\
    Forall2 (fun d c => api.cites (page_content d) (metadata d) c) docs cs.
Proof.
  induction docs as [|d rest IH]; intros Hall.
  - exists []. split; [reflexivity|constructor].
  - inversion Hall as [|? ? [Hf Hu] Hrest]; subst.
    destruct (IH Hrest) as (cs & Hcs & Hrel).
    simpl. unfold api.citation_of, api.cites.
    destruct (metadata d !! "filename") as [[f|n]|] eqn:Hfile;
      try (exfalso; exact (Hf n eq_refl));
      destruct (metadata d !! "drive_url") as [[u|n]|] eqn:Hurl;
      try (exfalso; exact (Hu n eq_refl));
      simpl; rewrite Hcs; simpl; eexists; (split; [reflexivity|]);
      constructor; try exact Hrel; simpl; rewrite ?Hfile, ?Hurl; auto.
Qed.

Lemma shaped_docs_citable (hits : list retriever.hit) (docs : list Document) :
  Forall2 (fun h d => retriever.text_content h = Some (page_content d) /\
                      retriever.hit_metadata h = Some (metadata d))
    hits docs ->
  Forall (fun h => exists text md,
            retriever.text_content h = Some text /\
            retriever.hit_metadata h = Some md /\
            api.citable md) hits ->
  Forall (fun d => api.citable (metadata d)) docs.
Proof.
  induction 1 as [|h d hits' docs' [Ht Hm] Hrel IH]; intros Hall;
    [constructor|].
  inversion Hall as [|? ? (text & md & Ht' & Hm' & Hc) Hall']; subst.
  constructor; [|apply IH; exact Hall'].
  rewrite Hm in Hm'. injection Hm' as <-. exact Hc.
Qed.

Lemma shaped_docs_cited (hits : list retriever.hit) (docs : list Document)
    (cs : list api.Citation) :
  Forall2 (fun h d => retriever.text_content h = Some (page_content d) /\
                      retriever.hit_metadata h = Some (metadata d))
    hits docs ->
  Forall2 (fun d c => api.cites (page_content d) (metadata d) c) docs cs ->
  Forall2 (fun h c => exists text md,
             retriever.text_content h = Some text /\
             retriever.hit_metadata h = Some md /\
             api.cites text md c) hits cs.
Proof.
  intros Hrel. revert cs.
  induction Hrel as [|h d hits' docs' [Ht Hm] Hrel IH]; intros cs Hcs;
    inversion Hcs; subst; constructor.
  - exists (page_content d), (metadata d). auto.
  - apply IH. assumption.
Qed.
End query_theorems_support.

(** X11.  A query whose retrieval fails in the storage backend is not
    an API error: once the retriever is built, the endpoint still asks
    the model, with a prompt whose context is empty, and answers with
    the model's text and no citation. *)
Theorem query_answers_without_passages
    (vector : Type) (llm : string -> result string)
    (Elasticsearch :
       es_client_args ->
       result (retriever.search_call vector -> result (list retriever.hit)))
    (HuggingFaceEmbeddings : string -> result (string -> result vector))
    (settings : config.Settings) (elastic : config.Elastic)
    (validation_error : string -> value -> string)
    (request : api.QueryRequest) (r : retriever.HybridRetriever vector)
    (a : string) :
  (retriever.get_retriever Elasticsearch HuggingFaceEmbeddings settings
     elastic (api.retrieval_mode request) 5).2 = Ok r ->
  retriever.backend_failure r (api.question request) ->
  llm (chains.prompt "" (api.question request)) = Ok a ->
  api.query_result
    (api.query llm Elasticsearch HuggingFaceEmbeddings settings elastic
       validation_error request)
  = api.Returned {| api.answer := a; api.citations := [] |}.
Proof.
  intros Hr Hfail Hllm.
  rewrite (query_result_with llm Elasticsearch HuggingFaceEmbeddings settings
             elastic validation_error request r Hr).
  destruct (failure_raises_in_try r (api.question request) Hfail)
    as (e & calls & He).
  unfold retriever._get_relevant_documents. rewrite He. simpl.
  change (chains.format_docs []) with "". rewrite Hllm. reflexivity.
Qed.

Lemma query_answers_without_passages_witness :
  api.query_result
    (api.query sample.canned_llm sample.unreachable sample.embedder
       config.defaults config.elastic_defaults sample.no_text
       (sample.ask "hybrid"))
  = api.Returned
      {| api.answer :=
           "I don't have enough information to answer that question.";
         api.citations := [] |}.
Proof.
  apply (query_answers_without_passages (list Z) sample.canned_llm
           sample.unreachable sample.embedder config.defaults
           config.elastic_defaults sample.no_text (sample.ask "hybrid")
           _ _ eq_refl).
  - exact I.
  - reflexivity.
Defined.

(** X12.  When the search call is made and returns hits that all carry
    text and metadata, with [filename] and [drive_url] strings where present,
    and the model answers, the endpoint returns one citation per hit,
    in the order of the hits: the snippet is the stored text, the
    filename is the stored [filename] or ["Unknown"], and the URL is
    the stored [drive_url] or none. *)
Theorem query_cites_every_hit
    (vector : Type) (llm : string -> result string)
    (Elasticsearch :
       es_client_args ->
       result (retriever.search_call vector -> result (list retriever.hit)))
    (HuggingFaceEmbeddings : string -> result (string -> result vector))
    (settings : config.Settings) (elastic : config.Elastic)
    (validation_error : string -> value -> string)
    (request : api.QueryRequest) (r : retriever.HybridRetriever vector)
    (call : retriever.search_call vector) (hits : list retriever.hit) :
  (retriever.get_retriever Elasticsearch HuggingFaceEmbeddings settings
     elastic (api.retrieval_mode request) 5).2 = Ok r ->
  retriever.search_call_of r (api.question request) = Ok call ->
  retriever.client r call = Ok hits ->
  Forall (fun h => exists text md,
            retriever.text_content h = Some text /\
            retriever.hit_metadata h = Some md /\
            api.citable md) hits ->
  (forall prompt, exists a, llm prompt = Ok a) ->
  exists a cs,
    api.query_result
      (api.query llm Elasticsearch HuggingFaceEmbeddings settings elastic
         validation_error request)
    = api.Returned {| api.answer := a; api.citations := cs |} /\
    Forall2 (fun h c => exists text md,
               retriever.text_content h = Some text /\
               retriever.hit_metadata h = Some md /\
               api.cites text md c) hits cs.
Proof.
  intros Hr Hcall Hsearch Hall Hllm.
  rewrite (query_result_with llm Elasticsearch HuggingFaceEmbeddings settings
             elastic validation_error request r Hr).
  assert (Hgood : Forall (fun h => is_Some (retriever.text_content h) /\
                                   is_Some (retriever.hit_metadata h)) hits).
  { eapply Forall_impl; [exact Hall|].
    intros h (text & md & Ht & Hm & _). rewrite Ht, Hm. eauto. }
  destruct (documents_of_hits_ok hits Hgood) as (docs & Hdocs & Hrel).
  unfold retriever._get_relevant_documents.
  rewrite search_and_shape_eq, Hcall, Hsearch. simpl. rewrite Hdocs. simpl.
  destruct (Hllm (chains.prompt (chains.format_docs docs)
                    (api.question request))) as [a ->]. simpl.
  destruct (citations_of_ok validation_error docs
              (shaped_docs_citable hits docs Hrel Hall))
    as (cs & -> & Hcs).
  simpl. exists a, cs. split; [reflexivity|].
  exact (shaped_docs_cited hits docs cs Hrel Hcs).
Qed.

Lemma query_cites_every_hit_witness :
  exists a cs,
    api.query_result
      (api.query sample.canned_llm sample.reachable sample.embedder
         config.defaults config.elastic_defaults sample.no_text
         (sample.ask "hybrid"))
    = api.Returned {| api.answer := a; api.citations := cs |} /\
    Forall2 (fun h c => exists text md,
               retriever.text_content h = Some text /\
               retriever.hit_metadata h = Some md /\
               api.cites text md c) sample.two_hits cs.
Proof.
  apply (query_cites_every_hit (list Z) sample.canned_llm sample.reachable
           sample.embedder config.defaults config.elastic_defaults
           sample.no_text (sample.ask "hybrid") _ _ sample.two_hits eq_refl
           eq_refl eq_refl).
  - repeat constructor.
    + eexists _, _. split; [reflexivity|]. split; [reflexivity|].
      split; intros n; vm_compute; discriminate.
    + eexists _, _. split; [reflexivity|]. split; [reflexivity|].
      split; intros n; vm_compute; discriminate.
  - intros prompt. eexists. reflexivity.
Defined.

(** X13.  When the model call raises, the endpoint raises an HTTP 500
    whose detail is the fixed prefix followed by the text of that
    exception, whatever the retrieval returned, failed retrieval
    included. *)
Theorem query_model_failure_is_500
    (vector : Type) (llm : string -> result string)
    (Elasticsearch :
       es_client_args ->
       result (retriever.search_call vector -> result (list retriever.hit)))
    (HuggingFaceEmbeddings : string -> result (string -> result vector))
    (settings : config.Settings) (elastic : config.Elastic)
    (validation_error : string -> value -> string)
    (request : api.QueryRequest) (r : retriever.HybridRetriever vector)
    (e : Exception) :
  (retriever.get_retriever Elasticsearch HuggingFaceEmbeddings settings
     elastic (api.retrieval_mode request) 5).2 = Ok r ->
  (forall prompt, llm prompt = Raise e) ->
  api.query_result
    (api.query llm Elasticsearch HuggingFaceEmbeddings settings elastic
       validation_error request)
  = api.HTTPException 500
      ("An internal server error occurred: " +:+ str_exc e).
Proof.
  intros Hr Hllm.
  rewrite (query_result_with llm Elasticsearch HuggingFaceEmbeddings settings
             elastic validation_error request r Hr).
  destruct (retrieval_returns r (api.question request)) as [docs ->].
  simpl. rewrite Hllm. reflexivity.
Qed.

Lemma query_model_failure_is_500_witness :
  api.query_result
    (api.query sample.llm_down sample.reachable sample.embedder
       config.defaults config.elastic_defaults sample.no_text
       (sample.ask "elser_only"))
  = api.HTTPException 500
      "An internal server error occurred: ollama is not running".
Proof.
  apply (query_model_failure_is_500 (list Z) sample.llm_down sample.reachable
           sample.embedder config.defaults config.elastic_defaults
           sample.no_text (sample.ask "elser_only") _
           (ConnectionError "ollama is not running") eq_refl).
  intros prompt. reflexivity.
Defined.

(** ** The console against the API *)

(** X14.  The retrieval mode chosen in the console never reaches the
    endpoint: the console sends it under the key [mode], the request
    model reads [retrieval_mode] and ignores other keys, so whatever
    mode is selected the endpoint runs as for [retrieval_mode =
    "hybrid"]. *)
Theorem console_mode_is_ignored
    (vector : Type) (llm : string -> result string)
    (Elasticsearch :
       es_client_args ->
       result (retriever.search_call vector -> result (list retriever.hit)))
    (HuggingFaceEmbeddings : string -> result (string -> result vector))
    (settings : config.Settings) (elastic : config.Elastic)
    (validation_error : string -> value -> string)
    (prompt selected_mode : string) :
  api.post_query llm Elasticsearch HuggingFaceEmbeddings settings elastic
    validation_error (ui.payload prompt selected_mode)
  = Some
      (api.query llm Elasticsearch HuggingFaceEmbeddings settings elastic
         validation_error
         {| api.question := prompt; api.retrieval_mode := "hybrid" |}).
Proof.
  unfold api.post_query, ui.payload, api.parse_QueryRequest.
  simpl. reflexivity.
Qed.

(** X15.  The console reads the answer of [/query] under the keys
    [answer] and [sources]; the response model has the keys [answer]
    and [citations].  So for every response of the endpoint the console
    finds the answer text and an empty list of sources: the citations
    the body carries are not read. *)
Theorem console_reads_no_citations (response : api.QueryResponse) :
  exists fields,
    api.json_of_QueryResponse response = JObj fields /\
    ui.answer_of fields = JStr (api.answer response) /\
    ui.sources_of fields = JArr [] /\
    assoc "citations" fields
      = Some (JArr (map api.json_of_Citation (api.citations response))).
Proof. eexists. split; [reflexivity|]. repeat split. Qed.
